(** * run_by_epoch: the per-epoch coherence pipeline

    A shallow embedding of [src/scripts/run_by_epoch.py] and the proofs of
    its specification.

    - The module-level tables ([animals], the eight multitaper parameter
      sets, [multitaper_parameters], [ripple_covariates]) are translated
      literally.  Decimal literals are IEEE binary64 floats, as in Python.
    - [estimate_ripple_coherence] calls ten functions imported from
      [src.analysis] and [src.data_processing].  They are not part of this
      file: the orchestrator is embedded as a program over an interface of
      collaborator calls ([prog]), and a run interprets that program against
      arbitrary collaborators that may read and change a world state and
      may raise ([run]).  A run yields the final world, the trace of the
      calls made with what each one answered, and the result of the run.
    - A Python dict iterates in insertion order (the language guarantees
      it from 3.7 on), so [multitaper_parameters.items()] is an association
      list in the order of the dict display.
    - The collaborators are taken to leave the tables alone: the dicts they
      are handed are the module's own objects, and nothing in this file
      writes to them. *)

From Stdlib Require Import ZArith List Lia Floats.PrimFloat.
From stdpp Require Import base strings gmap list pretty.

Set Warnings "-inexact-float".
Open Scope Z_scope.

(* ===================================================================== *)
(** ** Module-level data *)
(* ===================================================================== *)

(** [sampling_frequency = 1500] *)
Definition sampling_frequency : Z := 1500.

(** [Animal = namedtuple('Animal', {'directory', 'short_name'})].  The
    field names are given as a set, so the positional order of the two
    fields is not fixed; every use in the file is by keyword, which the
    record captures. *)
Record Animal : Type := mkAnimal {
  directory : string;
  short_name : string
}.

(** [animals]: a dict used as a map from short name to [Animal]; the keys
    are inserted in the order of the dict display. *)
Definition animals : gmap string Animal :=
  <["HPc" := {| directory := "HPc_direct"; short_name := "HPc" |}]>
  (<["HPb" := {| directory := "HPb_direct"; short_name := "HPb" |}]>
  (<["HPa" := {| directory := "HPa_direct"; short_name := "HPa" |}]> ∅)).

(** The dicts built by [dict(sampling_frequency=..., ...)]: one record field
    per key.  The fields live in a module of their own because the key
    [sampling_frequency] is also the name of a global. *)
Module Params.
Record t : Type := make {
  sampling_frequency : Z;
  time_window_duration : float;
  time_window_step : float;
  desired_frequencies : Z * Z;
  time_halfbandwidth_product : Z;
  window_of_interest : float * float
}.
End Params.

Definition ripple_frequency : Params.t := {|
  Params.sampling_frequency := sampling_frequency;
  Params.time_window_duration := 0.020%float;
  Params.time_window_step := 0.020%float;
  Params.desired_frequencies := (100, 300);
  Params.time_halfbandwidth_product := 1;
  Params.window_of_interest := ((-0.420)%float, 0.400%float)
|}.

Definition gamma_frequency_highTimeRes : Params.t := {|
  Params.sampling_frequency := sampling_frequency;
  Params.time_window_duration := 0.050%float;
  Params.time_window_step := 0.050%float;
  Params.desired_frequencies := (12, 125);
  Params.time_halfbandwidth_product := 1;
  Params.window_of_interest := ((-0.450)%float, 0.400%float)
|}.

Definition gamma_frequency_medFreqRes1 : Params.t := {|
  Params.sampling_frequency := sampling_frequency;
  Params.time_window_duration := 0.100%float;
  Params.time_window_step := 0.100%float;
  Params.desired_frequencies := (12, 125);
  Params.time_halfbandwidth_product := 1;
  Params.window_of_interest := ((-0.500)%float, 0.400%float)
|}.

Definition gamma_frequency_medFreqRes2 : Params.t := {|
  Params.sampling_frequency := sampling_frequency;
  Params.time_window_duration := 0.200%float;
  Params.time_window_step := 0.200%float;
  Params.desired_frequencies := (12, 125);
  Params.time_halfbandwidth_product := 1;
  Params.window_of_interest := ((-0.600)%float, 0.400%float)
|}.

Definition gamma_frequency_highFreqRes : Params.t := {|
  Params.sampling_frequency := sampling_frequency;
  Params.time_window_duration := 0.400%float;
  Params.time_window_step := 0.400%float;
  Params.desired_frequencies := (12, 125);
  Params.time_halfbandwidth_product := 1;
  Params.window_of_interest := ((-0.800)%float, 0.400%float)
|}.

Definition low_frequency_highTimeRes : Params.t := {|
  Params.sampling_frequency := sampling_frequency;
  Params.time_window_duration := 0.100%float;
  Params.time_window_step := 0.100%float;
  Params.desired_frequencies := (0, 30);
  Params.time_halfbandwidth_product := 1;
  Params.window_of_interest := ((-0.500)%float, 0.400%float)
|}.

Definition low_frequency_medFreqRes : Params.t := {|
  Params.sampling_frequency := sampling_frequency;
  Params.time_window_duration := 0.250%float;
  Params.time_window_step := 0.250%float;
  Params.desired_frequencies := (0, 30);
  Params.time_halfbandwidth_product := 1;
  Params.window_of_interest := ((-0.750)%float, 0.250%float)
|}.

Definition low_frequency_highFreqRes : Params.t := {|
  Params.sampling_frequency := sampling_frequency;
  Params.time_window_duration := 0.500%float;
  Params.time_window_step := 0.500%float;
  Params.desired_frequencies := (0, 30);
  Params.time_halfbandwidth_product := 1;
  Params.window_of_interest := ((-1.00)%float, 0.500%float)
|}.

(** A catalog is what [.items()] of a dict of parameter sets yields: the
    (key, value) pairs in insertion order. *)
Definition Catalog : Type := list (string * Params.t).

Definition multitaper_parameters : Catalog := [
  ("gamma_frequency_medFreqRes1", gamma_frequency_medFreqRes1);
  ("gamma_frequency_medFreqRes2", gamma_frequency_medFreqRes2);
  ("gamma_frequency_highTimeRes", gamma_frequency_highTimeRes);
  ("gamma_frequency_highFreqRes", gamma_frequency_highFreqRes);
  ("low_frequencies_highTimeRes", low_frequency_highTimeRes);
  ("low_frequencies_medFreqRes", low_frequency_medFreqRes);
  ("low_frequencies_highFreqRes", low_frequency_highFreqRes);
  ("ripple_frequencies", ripple_frequency)
].

Definition ripple_covariates : list string :=
  ["session_time"; "ripple_trajectory"; "ripple_direction"].

(** [epoch_index = (args.Animal, args.Day, args.Epoch)] *)
Definition EpochIndex : Type := string * Z * Z.

(** The two orderings the specification asks of a parameter set, as the
    Python comparisons [w[0] < w[1]] (floats) and [f[0] < f[1]] (ints). *)
Definition window_ordered (p : Params.t) : bool :=
  PrimFloat.ltb (fst (Params.window_of_interest p))
                (snd (Params.window_of_interest p)).

Definition frequencies_ordered (p : Params.t) : bool :=
  fst (Params.desired_frequencies p) <? snd (Params.desired_frequencies p).

Definition well_formed (p : Params.t) : bool :=
  window_ordered p && frequencies_ordered p.

(* ===================================================================== *)
(** ** The collaborators' interface *)
(* ===================================================================== *)

(** What the imported functions exchange with the orchestrator is opaque to
    it: the values are only passed on.  [Extras] is the rest of the tuple
    that [decode_ripple_clusterless] returns after its first element,
    [Artifact] whatever the coherence functions return (it is dropped),
    [Error] the exceptions a collaborator may raise and [World] the state
    the collaborators live in (files, clock, caches). *)
Class PipelineTypes : Type := {
  RippleTimes : Type;
  LFPs : Type;
  TetrodeInfo : Type;
  RippleInfo : Type;
  Extras : Type;
  Artifact : Type;
  Error : Type;
  World : Type
}.

Section Interface.
Context `{PipelineTypes}.

(** One constructor per imported function, with the arguments of its call
    site (keyword arguments in the order they are written). *)
Inductive call : Type :=
| DetectEpochRipples (epoch_index : EpochIndex)
    (registry : gmap string Animal) (sampling_freq : Z)
| GetEpochLfps (epoch_index : EpochIndex) (registry : gmap string Animal)
| SaveTetrodePairInfo (epoch_index : EpochIndex) (tetrode_info : TetrodeInfo)
| RippleTriggeredCoherence (lfps : LFPs) (ripple_times : RippleTimes)
    (multitaper_parameter_name : string) (multitaper_params : Params.t)
| RippleTriggeredCanonicalCoherence (lfps : LFPs)
    (epoch_index : EpochIndex) (tetrode_info : TetrodeInfo)
    (ripple_times : RippleTimes)
    (multitaper_parameter_name : string) (multitaper_params : Params.t)
| SaveMultitaperParameters (epoch_index : EpochIndex)
    (parameters_name : string) (parameters : Params.t)
| DecodeRippleClusterless (epoch_index : EpochIndex)
    (registry : gmap string Animal) (ripple_times : RippleTimes)
| SaveRippleInfo (epoch_index : EpochIndex) (ripple_info : RippleInfo)
| CoherenceByRippleType (lfps : LFPs) (ripple_info : RippleInfo)
    (covariate : string)
    (multitaper_parameter_name : string) (multitaper_params : Params.t)
| CanonicalCoherenceByRippleType (lfps : LFPs)
    (epoch_index : EpochIndex) (tetrode_info : TetrodeInfo)
    (ripple_info : RippleInfo) (covariate : string)
    (multitaper_parameter_name : string) (multitaper_params : Params.t).

(** What a call gives back when it returns.  [get_epoch_lfps] is
    unpacked into two names, and the result of
    [decode_ripple_clusterless] is indexed at [0]: a pair and a tuple
    with a first element. *)
Definition response (c : call) : Type :=
  match c with
  | DetectEpochRipples _ _ _ => RippleTimes
  | GetEpochLfps _ _ => LFPs * TetrodeInfo
  | DecodeRippleClusterless _ _ _ => RippleInfo * Extras
  | SaveTetrodePairInfo _ _
  | SaveMultitaperParameters _ _ _
  | SaveRippleInfo _ _ => unit
  | RippleTriggeredCoherence _ _ _ _
  | RippleTriggeredCanonicalCoherence _ _ _ _ _ _
  | CoherenceByRippleType _ _ _ _ _
  | CanonicalCoherenceByRippleType _ _ _ _ _ _ _ => Artifact
  end.

(** The same, as one type, for the trace of a run. *)
Inductive answer : Type :=
| Raised (e : Error)
| ReturnedRippleTimes (ripple_times : RippleTimes)
| ReturnedLfps (lfps : LFPs) (tetrode_info : TetrodeInfo)
| ReturnedDecoded (ripple_info : RippleInfo) (rest : Extras)
| ReturnedArtifact (a : Artifact)
| ReturnedNone.

Definition answer_of (c : call) : response c -> answer :=
  match c return response c -> answer with
  | DetectEpochRipples _ _ _ => ReturnedRippleTimes
  | GetEpochLfps _ _ => fun v => ReturnedLfps (fst v) (snd v)
  | DecodeRippleClusterless _ _ _ => fun v => ReturnedDecoded (fst v) (snd v)
  | SaveTetrodePairInfo _ _
  | SaveMultitaperParameters _ _ _
  | SaveRippleInfo _ _ => fun _ => ReturnedNone
  | RippleTriggeredCoherence _ _ _ _
  | RippleTriggeredCanonicalCoherence _ _ _ _ _ _
  | CoherenceByRippleType _ _ _ _ _
  | CanonicalCoherenceByRippleType _ _ _ _ _ _ _ => ReturnedArtifact
  end.

(** The collaborators: each call, made in a world, leaves a world and
    either raises or returns. *)
Definition Collaborators : Type :=
  forall c : call, World -> World * (Error + response c).

(** *** Programs over the interface *)

Inductive prog (A : Type) : Type :=
| Ret (a : A)
| Call (c : call) (k : response c -> prog A).
Global Arguments Ret {A} a.
Global Arguments Call {A} c k.

Fixpoint bind {A B : Type} (p : prog A) (f : A -> prog B) : prog B :=
  match p with
  | Ret a => f a
  | Call c k => Call c (fun v => bind (k v) f)
  end.

(** A Python [for] statement whose body neither breaks nor returns. *)
Fixpoint for_ {X : Type} (xs : list X) (body : X -> prog unit) : prog unit :=
  match xs with
  | [] => Ret tt
  | x :: xs' => bind (body x) (fun _ => for_ xs' body)
  end.

(** *** Running a program *)

(** A trace: the calls made, each with what it answered. *)
Definition trace : Type := list (call * answer).

(** An exception raised by a call is not caught anywhere in the file: it
    ends the run and is its result. *)
Fixpoint run {A : Type} (h : Collaborators) (p : prog A) (w : World)
  : World * trace * (Error + A) :=
  match p with
  | Ret a => (w, [], inr a)
  | Call c k =>
      match h c w with
      | (w1, inl e) => (w1, [(c, Raised e)], inl e)
      | (w1, inr v) =>
          let '(w2, t, r) := run h (k v) w1 in
          (w2, (c, answer_of c v) :: t, r)
      end
  end.

Definition world_of {A} (o : World * trace * (Error + A)) : World := fst (fst o).
Definition trace_of {A} (o : World * trace * (Error + A)) : trace := snd (fst o).
Definition result_of {A} (o : World * trace * (Error + A)) : Error + A := snd o.

(** The calls of a trace, in order. *)
Definition calls (t : trace) : list call := map fst t.
Definition answers (t : trace) : list answer := map snd t.

End Interface.

Declare Scope prog_scope.
Delimit Scope prog_scope with prog.
Notation "x <- p ;; q" := (bind p (fun x => q))
  (at level 100, p at next level, right associativity) : prog_scope.
Notation "p ;; q" := (bind p (fun _ => q))
  (at level 100, right associativity) : prog_scope.

(* ===================================================================== *)
(** ** The orchestrator *)
(* ===================================================================== *)

Section Orchestrator.
Context `{PipelineTypes}.
Open Scope prog_scope.

(** The imported functions, as calls of the interface. *)
Definition detect_epoch_ripples epoch_index registry sampling_freq
  : prog RippleTimes :=
  Call (DetectEpochRipples epoch_index registry sampling_freq) Ret.
Definition get_epoch_lfps epoch_index registry : prog (LFPs * TetrodeInfo) :=
  Call (GetEpochLfps epoch_index registry) Ret.
Definition save_tetrode_pair_info epoch_index tetrode_info : prog unit :=
  Call (SaveTetrodePairInfo epoch_index tetrode_info) Ret.
Definition ripple_triggered_coherence lfps ripple_times name params
  : prog Artifact :=
  Call (RippleTriggeredCoherence lfps ripple_times name params) Ret.
Definition ripple_triggered_canonical_coherence
    lfps epoch_index tetrode_info ripple_times name params : prog Artifact :=
  Call (RippleTriggeredCanonicalCoherence
          lfps epoch_index tetrode_info ripple_times name params) Ret.
Definition save_multitaper_parameters epoch_index name params : prog unit :=
  Call (SaveMultitaperParameters epoch_index name params) Ret.
Definition decode_ripple_clusterless epoch_index registry ripple_times
  : prog (RippleInfo * Extras) :=
  Call (DecodeRippleClusterless epoch_index registry ripple_times) Ret.
Definition save_ripple_info epoch_index ripple_info : prog unit :=
  Call (SaveRippleInfo epoch_index ripple_info) Ret.
Definition coherence_by_ripple_type lfps ripple_info covariate name params
  : prog Artifact :=
  Call (CoherenceByRippleType lfps ripple_info covariate name params) Ret.
Definition canonical_coherence_by_ripple_type
    lfps epoch_index tetrode_info ripple_info covariate name params
  : prog Artifact :=
  Call (CanonicalCoherenceByRippleType
          lfps epoch_index tetrode_info ripple_info covariate name params) Ret.

(** The body of [estimate_ripple_coherence], with the two tables it
    iterates over taken as arguments. *)
Definition estimate_ripple_coherence_over
    (catalog : Catalog) (covariates : list string)
    (epoch_index : EpochIndex) : prog unit :=
  ripple_times <- detect_epoch_ripples epoch_index animals sampling_frequency ;;
  loaded <- get_epoch_lfps epoch_index animals ;;
  let '(lfps, tetrode_info) := loaded in
  save_tetrode_pair_info epoch_index tetrode_info ;;
  (* Compare before ripple to after ripple *)
  for_ catalog (fun '(parameters_name, parameters) =>
    ripple_triggered_coherence
      lfps ripple_times parameters_name parameters ;;
    ripple_triggered_canonical_coherence
      lfps epoch_index tetrode_info ripple_times parameters_name parameters ;;
    save_multitaper_parameters epoch_index parameters_name parameters) ;;
  (* Compare different types of ripples *)
  decoded <- decode_ripple_clusterless epoch_index animals ripple_times ;;
  let ripple_info := fst decoded in
  save_ripple_info epoch_index ripple_info ;;
  for_ covariates (fun covariate =>
    for_ catalog (fun '(parameters_name, parameters) =>
      coherence_by_ripple_type
        lfps ripple_info covariate parameters_name parameters ;;
      _ <- canonical_coherence_by_ripple_type
        lfps epoch_index tetrode_info ripple_info covariate
        parameters_name parameters ;;
      Ret tt)).

(** [estimate_ripple_coherence(epoch_index)] *)
Definition estimate_ripple_coherence (epoch_index : EpochIndex) : prog unit :=
  estimate_ripple_coherence_over
    multitaper_parameters ripple_covariates epoch_index.

End Orchestrator.

(* ===================================================================== *)
(** ** Reading traces *)
(* ===================================================================== *)

(** How many elements of a list satisfy a test. *)
Fixpoint count {X : Type} (P : X -> bool) (l : list X) : nat :=
  match l with
  | [] => 0
  | x :: l' => (if P x then 1 else 0) + count P l'
  end%nat.

Section Observers.
Context `{PipelineTypes}.

(** The four entry points of the Coherence Engine. *)
Definition is_triggered_pairwise (c : call) : bool :=
  match c with RippleTriggeredCoherence _ _ _ _ => true | _ => false end.
Definition is_triggered_canonical (c : call) : bool :=
  match c with RippleTriggeredCanonicalCoherence _ _ _ _ _ _ => true | _ => false end.
Definition is_stratified_pairwise (c : call) : bool :=
  match c with CoherenceByRippleType _ _ _ _ _ => true | _ => false end.
Definition is_stratified_canonical (c : call) : bool :=
  match c with CanonicalCoherenceByRippleType _ _ _ _ _ _ _ => true | _ => false end.

Definition is_triggered (c : call) : bool :=
  is_triggered_pairwise c || is_triggered_canonical c.
Definition is_stratified (c : call) : bool :=
  is_stratified_pairwise c || is_stratified_canonical c.
Definition is_coherence (c : call) : bool :=
  is_triggered c || is_stratified c.

(** The Persistence Layer. *)
Definition is_save_tetrode_pair_info (c : call) : bool :=
  match c with SaveTetrodePairInfo _ _ => true | _ => false end.
Definition is_save_multitaper_parameters (c : call) : bool :=
  match c with SaveMultitaperParameters _ _ _ => true | _ => false end.
Definition is_save_ripple_info (c : call) : bool :=
  match c with SaveRippleInfo _ _ => true | _ => false end.
Definition is_persistence (c : call) : bool :=
  is_save_tetrode_pair_info c || is_save_multitaper_parameters c
  || is_save_ripple_info c.

(** Detector, loader and classifier. *)
Definition is_detector (c : call) : bool :=
  match c with DetectEpochRipples _ _ _ => true | _ => false end.
Definition is_loader (c : call) : bool :=
  match c with GetEpochLfps _ _ => true | _ => false end.
Definition is_classifier (c : call) : bool :=
  match c with DecodeRippleClusterless _ _ _ => true | _ => false end.

(** The parameter-set name and the covariate a call carries. *)
Definition parameter_name (c : call) : option string :=
  match c with
  | RippleTriggeredCoherence _ _ n _
  | RippleTriggeredCanonicalCoherence _ _ _ _ n _
  | SaveMultitaperParameters _ n _
  | CoherenceByRippleType _ _ _ n _
  | CanonicalCoherenceByRippleType _ _ _ _ _ n _ => Some n
  | _ => None
  end.

Definition covariate_of (c : call) : option string :=
  match c with
  | CoherenceByRippleType _ _ cov _ _
  | CanonicalCoherenceByRippleType _ _ _ _ cov _ _ => Some cov
  | _ => None
  end.

Definition names (name : string) (c : call) : bool :=
  match parameter_name c with
  | Some n => String.eqb n name
  | None => false
  end.

Definition stratifies (covariate : string) (c : call) : bool :=
  match covariate_of c with
  | Some cov => String.eqb cov covariate
  | None => false
  end.

(** The (covariate, parameter-set name) pairs of the stratified calls of
    a list, in order: of the pairwise ones, of the canonical ones, and of
    both. *)
Definition pairwise_strata (l : list call) : list (string * string) :=
  flat_map (fun c =>
    match c with
    | CoherenceByRippleType _ _ covariate name _ => [(covariate, name)]
    | _ => []
    end) l.

Definition canonical_strata (l : list call) : list (string * string) :=
  flat_map (fun c =>
    match c with
    | CanonicalCoherenceByRippleType _ _ _ _ covariate name _ =>
        [(covariate, name)]
    | _ => []
    end) l.

Definition strata (l : list call) : list (string * string) :=
  flat_map (fun c =>
    match c with
    | CoherenceByRippleType _ _ covariate name _
    | CanonicalCoherenceByRippleType _ _ _ _ covariate name _ =>
        [(covariate, name)]
    | _ => []
    end) l.

(** The RippleInfo a call is given, for the calls that take one. *)
Definition ripple_info_of (c : call) : option RippleInfo :=
  match c with
  | SaveRippleInfo _ ripple_info
  | CoherenceByRippleType _ ripple_info _ _ _
  | CanonicalCoherenceByRippleType _ _ _ ripple_info _ _ _ => Some ripple_info
  | _ => None
  end.

(** An event whose call returned rather than raised. *)
Definition returned (ev : call * answer) : bool :=
  match snd ev with Raised _ => false | _ => true end.

(** The calls one pass of each loop body makes, in the order of its
    statements. *)
Definition triggered_calls (epoch_index : EpochIndex)
    (ripple_times : RippleTimes) (lfps : LFPs) (tetrode_info : TetrodeInfo)
    (catalog : Catalog) : list call :=
  flat_map (fun '(name, params) =>
    [ RippleTriggeredCoherence lfps ripple_times name params;
      RippleTriggeredCanonicalCoherence
        lfps epoch_index tetrode_info ripple_times name params;
      SaveMultitaperParameters epoch_index name params ]) catalog.

Definition stratified_calls (epoch_index : EpochIndex)
    (lfps : LFPs) (tetrode_info : TetrodeInfo) (ripple_info : RippleInfo)
    (catalog : Catalog) (covariates : list string) : list call :=
  flat_map (fun covariate =>
    flat_map (fun '(name, params) =>
      [ CoherenceByRippleType lfps ripple_info covariate name params;
        CanonicalCoherenceByRippleType
          lfps epoch_index tetrode_info ripple_info covariate name params ])
      catalog) covariates.

(** The trace of a whole run that nothing interrupts. *)
Definition full_calls (catalog : Catalog) (covariates : list string)
    (epoch_index : EpochIndex) (ripple_times : RippleTimes) (lfps : LFPs)
    (tetrode_info : TetrodeInfo) (ripple_info : RippleInfo) : list call :=
  [ DetectEpochRipples epoch_index animals sampling_frequency;
    GetEpochLfps epoch_index animals;
    SaveTetrodePairInfo epoch_index tetrode_info ]
  ++ triggered_calls epoch_index ripple_times lfps tetrode_info catalog
  ++ [ DecodeRippleClusterless epoch_index animals ripple_times;
       SaveRippleInfo epoch_index ripple_info ]
  ++ stratified_calls epoch_index lfps tetrode_info ripple_info
       catalog covariates.

(** [emits h p cs]: run against [h] from any world, [p] makes the calls
    [cs] in order, up to the one that raises, and all of them when it
    returns. *)
Definition emits {A : Type} (h : Collaborators) (p : prog A)
    (cs : list call) : Prop :=
  forall w,
    calls (trace_of (run h p w)) `prefix_of` cs /\
    (forall a, result_of (run h p w) = inr a ->
               calls (trace_of (run h p w)) = cs).

(** The shapes the trace and result of [estimate_ripple_coherence_over]
    can take: by where the run stops. *)
Inductive run_shape (catalog : Catalog) (covariates : list string)
    (epoch_index : EpochIndex) : trace -> Error + unit -> Prop :=
| DetectorFailed (err : Error) :
    run_shape catalog covariates epoch_index
      [ (DetectEpochRipples epoch_index animals sampling_frequency,
         Raised err) ]
      (inl err)
| LoaderFailed (ripple_times : RippleTimes) (err : Error) :
    run_shape catalog covariates epoch_index
      [ (DetectEpochRipples epoch_index animals sampling_frequency,
         ReturnedRippleTimes ripple_times);
        (GetEpochLfps epoch_index animals, Raised err) ]
      (inl err)
| StoppedBeforeClassified (ripple_times : RippleTimes) (lfps : LFPs)
    (tetrode_info : TetrodeInfo) (t1 : trace) (err : Error) :
    t1 <> [] ->
    calls t1 `prefix_of`
      (SaveTetrodePairInfo epoch_index tetrode_info
       :: triggered_calls epoch_index ripple_times lfps tetrode_info catalog
       ++ [DecodeRippleClusterless epoch_index animals ripple_times]) ->
    run_shape catalog covariates epoch_index
      ((DetectEpochRipples epoch_index animals sampling_frequency,
        ReturnedRippleTimes ripple_times)
       :: (GetEpochLfps epoch_index animals, ReturnedLfps lfps tetrode_info)
       :: t1)
      (inl err)
| Classified (ripple_times : RippleTimes) (lfps : LFPs)
    (tetrode_info : TetrodeInfo) (t1 : trace)
    (ripple_info : RippleInfo) (rest : Extras) (t2 : trace)
    (r : Error + unit) :
    calls t1 =
      SaveTetrodePairInfo epoch_index tetrode_info
      :: triggered_calls epoch_index ripple_times lfps tetrode_info catalog ->
    t2 <> [] ->
    calls t2 `prefix_of`
      (SaveRippleInfo epoch_index ripple_info
       :: stratified_calls epoch_index lfps tetrode_info ripple_info
            catalog covariates) ->
    (forall u, r = inr u ->
       calls t2 =
         SaveRippleInfo epoch_index ripple_info
         :: stratified_calls epoch_index lfps tetrode_info ripple_info
              catalog covariates) ->
    run_shape catalog covariates epoch_index
      ((DetectEpochRipples epoch_index animals sampling_frequency,
        ReturnedRippleTimes ripple_times)
       :: (GetEpochLfps epoch_index animals, ReturnedLfps lfps tetrode_info)
       :: t1
       ++ (DecodeRippleClusterless epoch_index animals ripple_times,
           ReturnedDecoded ripple_info rest)
       :: t2)
      r.

(** One epoch run: [estimate_ripple_coherence(epoch_index)] executed
    against the collaborators [h] from the world [w]. *)
Definition epoch_run (h : Collaborators) (epoch_index : EpochIndex)
    (w : World) : World * trace * (Error + unit) :=
  run h (estimate_ripple_coherence epoch_index) w.

Definition completes (h : Collaborators) (epoch_index : EpochIndex)
    (w : World) : Prop :=
  result_of (epoch_run h epoch_index w) = inr tt.

(** In [l], every element that passes [Q] has exactly [n] elements that
    pass [P] before it. *)
Definition preceded_by (P : call -> bool) (n : nat) (Q : call -> bool)
    (l : list call) : Prop :=
  forall pre c post, l = pre ++ c :: post -> Q c = true -> count P pre = n.

End Observers.

(* ===================================================================== *)
(** ** Stub collaborators *)
(* ===================================================================== *)

(** Concrete collaborators to run the orchestrator against: ripple times
    are intervals in milliseconds, the LFPs a number of tetrodes, errors
    messages, and the world counts the calls served. *)
Definition stub_types : PipelineTypes := {|
  RippleTimes := list (Z * Z);
  LFPs := nat;
  TetrodeInfo := list string;
  RippleInfo := list string;
  Extras := unit;
  Artifact := unit;
  Error := string;
  World := nat
|}.

Definition canned (c : @call stub_types) : @response stub_types c :=
  match c return @response stub_types c with
  | DetectEpochRipples _ _ _ =>
      [(100, 180); (900, 1010); (2500, 2590); (4000, 4100); (7300, 7380)]
  | GetEpochLfps _ _ => (10%nat, ["CA1"; "CA1"; "PFC"])
  | DecodeRippleClusterless _ _ _ => (["inbound"; "forward"], tt)
  | SaveTetrodePairInfo _ _
  | SaveMultitaperParameters _ _ _
  | SaveRippleInfo _ _ => tt
  | RippleTriggeredCoherence _ _ _ _
  | RippleTriggeredCanonicalCoherence _ _ _ _ _ _
  | CoherenceByRippleType _ _ _ _ _
  | CanonicalCoherenceByRippleType _ _ _ _ _ _ _ => tt
  end.

(** The calls that pass [broken] raise; the others return canned values. *)
Definition stub (broken : @call stub_types -> bool) : @Collaborators stub_types :=
  fun c w =>
    (S w, if broken c then inl "collaborator failed"%string else inr (canned c)).

Definition working : @Collaborators stub_types := stub (fun _ => false).
Definition detector_down : @Collaborators stub_types := stub is_detector.
Definition loader_down : @Collaborators stub_types := stub is_loader.

Definition HPa_3_2 : EpochIndex := ("HPa"%string, 3, 2).

(** A parameter set as [ripple_frequency], with the two desired frequencies
    the other way round, and a catalog that holds it. *)
Definition reversed_band : Params.t := {|
  Params.sampling_frequency := sampling_frequency;
  Params.time_window_duration := 0.020%float;
  Params.time_window_step := 0.020%float;
  Params.desired_frequencies := (300, 100);
  Params.time_halfbandwidth_product := 1;
  Params.window_of_interest := ((-0.420)%float, 0.400%float)
|}.

Definition malformed_catalog : Catalog :=
  [("ripple_frequencies"%string, reversed_band)].

(* ===================================================================== *)
(** ** What a call is given *)
(* ===================================================================== *)

Section Arguments.
Context `{PipelineTypes}.

Definition epoch_index_of (c : call) : option EpochIndex :=
  match c with
  | DetectEpochRipples e _ _
  | GetEpochLfps e _
  | SaveTetrodePairInfo e _
  | RippleTriggeredCanonicalCoherence _ e _ _ _ _
  | SaveMultitaperParameters e _ _
  | DecodeRippleClusterless e _ _
  | SaveRippleInfo e _
  | CanonicalCoherenceByRippleType _ e _ _ _ _ _ => Some e
  | RippleTriggeredCoherence _ _ _ _
  | CoherenceByRippleType _ _ _ _ _ => None
  end.

Definition registry_of (c : call) : option (gmap string Animal) :=
  match c with
  | DetectEpochRipples _ registry _
  | GetEpochLfps _ registry
  | DecodeRippleClusterless _ registry _ => Some registry
  | _ => None
  end.

Definition ripple_times_of (c : call) : option RippleTimes :=
  match c with
  | RippleTriggeredCoherence _ ripple_times _ _
  | RippleTriggeredCanonicalCoherence _ _ _ ripple_times _ _
  | DecodeRippleClusterless _ _ ripple_times => Some ripple_times
  | _ => None
  end.

Definition lfps_of (c : call) : option LFPs :=
  match c with
  | RippleTriggeredCoherence lfps _ _ _
  | RippleTriggeredCanonicalCoherence lfps _ _ _ _ _
  | CoherenceByRippleType lfps _ _ _ _
  | CanonicalCoherenceByRippleType lfps _ _ _ _ _ _ => Some lfps
  | _ => None
  end.

Definition tetrode_info_of (c : call) : option TetrodeInfo :=
  match c with
  | SaveTetrodePairInfo _ tetrode_info
  | RippleTriggeredCanonicalCoherence _ _ tetrode_info _ _ _
  | CanonicalCoherenceByRippleType _ _ tetrode_info _ _ _ _ => Some tetrode_info
  | _ => None
  end.

(** The (name, parameters) pair of the calls that take one. *)
Definition entry_of (c : call) : option (string * Params.t) :=
  match c with
  | RippleTriggeredCoherence _ _ name params
  | RippleTriggeredCanonicalCoherence _ _ _ _ name params
  | SaveMultitaperParameters _ name params
  | CoherenceByRippleType _ _ _ name params
  | CanonicalCoherenceByRippleType _ _ _ _ _ name params => Some (name, params)
  | _ => None
  end.

(** What every call of the epoch run for [epoch_index] with trace [t] is
    given: the run's epoch index, the module's registry, an entry of the
    catalog, and for the rest what the detector and the loader returned in
    this run. *)
Definition passes_on (epoch_index : EpochIndex) (t : trace) (c : call)
  : Prop :=
  (forall e, epoch_index_of c = Some e -> e = epoch_index) /\
  (forall registry, registry_of c = Some registry -> registry = animals) /\
  (forall entry, entry_of c = Some entry -> In entry multitaper_parameters) /\
  (forall ripple_times, ripple_times_of c = Some ripple_times ->
     In (DetectEpochRipples epoch_index animals sampling_frequency,
         ReturnedRippleTimes ripple_times) t) /\
  (forall lfps, lfps_of c = Some lfps ->
     exists tetrode_info,
       In (GetEpochLfps epoch_index animals, ReturnedLfps lfps tetrode_info) t) /\
  (forall tetrode_info, tetrode_info_of c = Some tetrode_info ->
     exists lfps,
       In (GetEpochLfps epoch_index animals, ReturnedLfps lfps tetrode_info) t).

(** The same for a list of calls written out, with the values named. *)
Definition given (catalog : Catalog) (epoch_index : EpochIndex)
    (ripple_times : RippleTimes) (lfps : LFPs) (tetrode_info : TetrodeInfo)
    (c : call) : Prop :=
  (forall e, epoch_index_of c = Some e -> e = epoch_index) /\
  (forall registry, registry_of c = Some registry -> registry = animals) /\
  (forall entry, entry_of c = Some entry -> In entry catalog) /\
  (forall rt, ripple_times_of c = Some rt -> rt = ripple_times) /\
  (forall l, lfps_of c = Some l -> l = lfps) /\
  (forall ti, tetrode_info_of c = Some ti -> ti = tetrode_info).

(** A test for [preceded_by] on a given list: [seen] counts the elements
    passing [P] so far. *)
Fixpoint preceded_byb (P : call -> bool) (n : nat) (Q : call -> bool)
    (seen : nat) (l : list call) : bool :=
  match l with
  | [] => true
  | c :: l' =>
      (if Q c then Nat.eqb seen n else true)
      && preceded_byb P n Q (seen + (if P c then 1 else 0)) l'
  end.

(** Two calls that are both persistence calls or both not, and the same
    call when they are. *)
Definition same_persistence (c1 c2 : call) : Prop :=
  is_persistence c1 = is_persistence c2 /\
  (is_persistence c1 = true -> c1 = c2).

End Arguments.

(* ===================================================================== *)
(** ** The command-line script *)
(* ===================================================================== *)

(** [get_command_line_arguments], [get_logger] and [main] call into
    argparse, logging, signal and subprocess.  As for the pipeline, the
    library calls are an interface, the objects they hand out are opaque,
    and a run records the calls made.  The handler [_signal_handler] that
    [main] installs is referred to by the logger it closes over; when the
    operating system runs it is not part of a run of [main]. *)

(** [from logging import DEBUG, INFO] *)
Definition DEBUG : Z := 10.
Definition INFO : Z := 20.

(** [from signal import SIGUSR1, SIGUSR2] *)
Inductive signal_code : Type := SIGUSR1 | SIGUSR2.

(** [from sys import stdout] *)
Inductive stream : Type := stdout.

(** The arguments of the four [parser.add_argument] calls. *)
Inductive argument_type : Type := type_str | type_int.

Inductive argument : Type :=
| Positional (name : string) (type : argument_type) (help : string)
| StoreConst (option_strings : list string) (help : string)
    (dest : string) (const default : Z).

(** The namespace [parse_args] returns, with the attributes the four
    arguments give it. *)
Module Args.
Record t : Type := make {
  Animal : string;
  Day : Z;
  Epoch : Z;
  log_level : Z
}.
End Args.

(** What [subprocess.run] returns, with [stdout=PIPE] and
    [universal_newlines=True]. *)
Module CompletedProcess.
Record t : Type := make {
  returncode : Z;
  stdout : string
}.
End CompletedProcess.

(** The objects of argparse and logging, and [str.rstrip]. *)
Class ShellTypes : Type := {
  Parser : Type;
  Formatter : Type;
  Handler : Type;
  Logger : Type;
  rstrip : string -> string
}.

Section Shell.
Context `{PipelineTypes} `{ShellTypes}.

(** The closure [_signal_handler] of [main], over its logger. *)
Inductive signal_handler : Type :=
| SignalHandler (logger : Logger).

Inductive shell_call : Type :=
| ArgumentParser
| AddArgument (parser : Parser) (arg : argument)
| ParseArgs (parser : Parser)
| NewFormatter (fmt : string)
| StreamHandler (s : stream)
| SetFormatter (handler : Handler) (formatter : Formatter)
| GetLogger
| AddHandler (logger : Logger) (handler : Handler)
| SetLevel (logger : Logger) (level : Z)
| Signal (code : signal_code) (handler : signal_handler)
| LoggerInfo (logger : Logger) (msg : string)
| SubprocessRun (args : list string)
| Pipeline (c : call).

Definition shell_response (c : shell_call) : Type :=
  match c with
  | ArgumentParser => Parser
  | ParseArgs _ => Args.t
  | NewFormatter _ => Formatter
  | StreamHandler _ => Handler
  | GetLogger => Logger
  | SubprocessRun _ => CompletedProcess.t
  | AddArgument _ _
  | SetFormatter _ _
  | AddHandler _ _
  | SetLevel _ _
  | Signal _ _
  | LoggerInfo _ _ => unit
  | Pipeline c => response c
  end.

Inductive shell_answer : Type :=
| ShRaised (e : Error)
| ShParser (parser : Parser)
| ShArgs (args : Args.t)
| ShFormatter (formatter : Formatter)
| ShHandler (handler : Handler)
| ShLogger (logger : Logger)
| ShCompleted (completed : CompletedProcess.t)
| ShNone
| ShPipeline (a : answer).

Definition shell_answer_of (c : shell_call) : shell_response c -> shell_answer :=
  match c return shell_response c -> shell_answer with
  | ArgumentParser => ShParser
  | ParseArgs _ => ShArgs
  | NewFormatter _ => ShFormatter
  | StreamHandler _ => ShHandler
  | GetLogger => ShLogger
  | SubprocessRun _ => ShCompleted
  | AddArgument _ _
  | SetFormatter _ _
  | AddHandler _ _
  | SetLevel _ _
  | Signal _ _
  | LoggerInfo _ _ => fun _ => ShNone
  | Pipeline c => fun v => ShPipeline (answer_of c v)
  end.

Definition ShellCollaborators : Type :=
  forall c : shell_call, World -> World * (Error + shell_response c).

(** The collaborators of the pipeline, among those of the script. *)
Definition pipeline_of (hs : ShellCollaborators) : Collaborators :=
  fun c => hs (Pipeline c).

Inductive sh (A : Type) : Type :=
| Done (a : A)
| Act (c : shell_call) (k : shell_response c -> sh A).
Global Arguments Done {A} a.
Global Arguments Act {A} c k.

Fixpoint bind_sh {A B : Type} (p : sh A) (f : A -> sh B) : sh B :=
  match p with
  | Done a => f a
  | Act c k => Act c (fun v => bind_sh (k v) f)
  end.

Fixpoint for_sh {X : Type} (xs : list X) (body : X -> sh unit) : sh unit :=
  match xs with
  | [] => Done tt
  | x :: xs' => bind_sh (body x) (fun _ => for_sh xs' body)
  end.

(** A program of the pipeline, as part of the script. *)
Fixpoint lift {A : Type} (p : prog A) : sh A :=
  match p with
  | Ret a => Done a
  | Call c k => Act (Pipeline c) (fun v => lift (k v))
  end.

Definition shell_trace : Type := list (shell_call * shell_answer).

Fixpoint run_sh {A : Type} (hs : ShellCollaborators) (p : sh A) (w : World)
  : World * shell_trace * (Error + A) :=
  match p with
  | Done a => (w, [], inr a)
  | Act c k =>
      match hs c w with
      | (w1, inl e) => (w1, [(c, ShRaised e)], inl e)
      | (w1, inr v) =>
          let '(w2, t, r) := run_sh hs (k v) w1 in
          (w2, (c, shell_answer_of c v) :: t, r)
      end
  end.

(** An event of the pipeline, as an event of the script. *)
Definition embed (ev : call * answer) : shell_call * shell_answer :=
  (Pipeline (fst ev),
   match snd ev with
   | Raised e => ShRaised e
   | a => ShPipeline a
   end).

End Shell.

Declare Scope sh_scope.
Delimit Scope sh_scope with sh.
Notation "x <- p ;; q" := (bind_sh p (fun x => q))
  (at level 100, p at next level, right associativity) : sh_scope.
Notation "p ;; q" := (bind_sh p (fun _ => q))
  (at level 100, right associativity) : sh_scope.

Section Script.
Context `{PipelineTypes} `{ShellTypes}.
Open Scope sh_scope.

(** The library calls. *)
Definition new_argument_parser : sh Parser := Act ArgumentParser Done.
Definition add_argument parser arg : sh unit :=
  Act (AddArgument parser arg) Done.
Definition parse_args parser : sh Args.t := Act (ParseArgs parser) Done.
Definition new_formatter fmt : sh Formatter := Act (NewFormatter fmt) Done.
Definition new_stream_handler s : sh Handler := Act (StreamHandler s) Done.
Definition set_formatter handler formatter : sh unit :=
  Act (SetFormatter handler formatter) Done.
Definition getLogger : sh Logger := Act GetLogger Done.
Definition add_handler logger handler : sh unit :=
  Act (AddHandler logger handler) Done.
Definition set_level logger level : sh unit := Act (SetLevel logger level) Done.
Definition signal code handler : sh unit := Act (Signal code handler) Done.
Definition logger_info logger msg : sh unit := Act (LoggerInfo logger msg) Done.
Definition subprocess_run args : sh CompletedProcess.t :=
  Act (SubprocessRun args) Done.

(** [get_command_line_arguments()] *)
Definition get_command_line_arguments : sh Args.t :=
  parser <- new_argument_parser ;;
  add_argument parser
    (Positional "Animal" type_str "Short name of animal") ;;
  add_argument parser
    (Positional "Day" type_int "Day of recording session") ;;
  add_argument parser
    (Positional "Epoch" type_int "Epoch number of recording session") ;;
  add_argument parser
    (StoreConst ["-d"; "--debug"] "More verbose output for debugging"
       "log_level" DEBUG INFO) ;;
  parse_args parser.

(** [get_logger()] *)
Definition get_logger : sh Logger :=
  formatter <- new_formatter
    "%(asctime)s - %(name)s - %(levelname)s - %(message)s" ;;
  handler <- new_stream_handler stdout ;;
  set_formatter handler formatter ;;
  logger <- getLogger ;;
  add_handler logger handler ;;
  Done logger.

(** The message ['Processing epoch: Animal {0}, Day {1}, Epoch #{2}...'],
    formatted with the three components of [epoch_index]. *)
Definition processing_message (epoch_index : EpochIndex) : string :=
  let '(animal, day, epoch) := epoch_index in
  "Processing epoch: Animal " +:+ animal +:+ ", Day " +:+ pretty day
  +:+ ", Epoch #" +:+ pretty epoch +:+ "...".

(** ['Git Hash: {git_hash}'.format(git_hash=git_hash.rstrip())] *)
Definition git_hash_message (git_hash : string) : string :=
  "Git Hash: " +:+ rstrip git_hash.

(** [main()] *)
Definition main : sh unit :=
  args <- get_command_line_arguments ;;
  logger <- get_logger ;;
  set_level logger (Args.log_level args) ;;
  for_sh [SIGUSR1; SIGUSR2] (fun code =>
    signal code (SignalHandler logger)) ;;
  let epoch_index := (Args.Animal args, Args.Day args, Args.Epoch args) in
  logger_info logger (processing_message epoch_index) ;;
  completed <- subprocess_run ["git"; "rev-parse"; "HEAD"] ;;
  let git_hash := CompletedProcess.stdout completed in
  logger_info logger (git_hash_message git_hash) ;;
  lift (estimate_ripple_coherence epoch_index) ;;
  logger_info logger "Finished Processing".

(** *** Reading the traces of the script *)

Definition shell_calls (t : shell_trace) : list shell_call := map fst t.

Definition is_pipeline (c : shell_call) : bool :=
  match c with Pipeline _ => true | _ => false end.

Definition is_finished (c : shell_call) : bool :=
  match c with
  | LoggerInfo _ msg => String.eqb msg "Finished Processing"
  | _ => false
  end.

(** The calls of the pipeline among the calls of the script. *)
Definition pipeline_calls (l : list shell_call) : list call :=
  flat_map (fun c => match c with Pipeline c => [c] | _ => [] end) l.

(** What [main] does before it enters the pipeline, when every call
    returns: the seventeen calls with what they returned. *)
Definition preamble (parser : Parser) (args : Args.t) (formatter : Formatter)
    (handler : Handler) (logger : Logger) (completed : CompletedProcess.t)
  : shell_trace :=
  [ (ArgumentParser, ShParser parser);
    (AddArgument parser
       (Positional "Animal" type_str "Short name of animal"), ShNone);
    (AddArgument parser
       (Positional "Day" type_int "Day of recording session"), ShNone);
    (AddArgument parser
       (Positional "Epoch" type_int "Epoch number of recording session"),
     ShNone);
    (AddArgument parser
       (StoreConst ["-d"; "--debug"] "More verbose output for debugging"
          "log_level" DEBUG INFO), ShNone);
    (ParseArgs parser, ShArgs args);
    (NewFormatter "%(asctime)s - %(name)s - %(levelname)s - %(message)s",
     ShFormatter formatter);
    (StreamHandler stdout, ShHandler handler);
    (SetFormatter handler formatter, ShNone);
    (GetLogger, ShLogger logger);
    (AddHandler logger handler, ShNone);
    (SetLevel logger (Args.log_level args), ShNone);
    (Signal SIGUSR1 (SignalHandler logger), ShNone);
    (Signal SIGUSR2 (SignalHandler logger), ShNone);
    (LoggerInfo logger
       (processing_message
          (Args.Animal args, Args.Day args, Args.Epoch args)), ShNone);
    (SubprocessRun ["git"; "rev-parse"; "HEAD"], ShCompleted completed);
    (LoggerInfo logger
       (git_hash_message (CompletedProcess.stdout completed)), ShNone) ].

(** The shapes of a run of [main]: it stops before the pipeline; the
    pipeline, run for the epoch index of the command line, fails; the
    pipeline returns and the last line is logged. *)
Inductive main_shape (hs : ShellCollaborators)
  : shell_trace -> Error + unit -> Prop :=
| SetupFailed (t : shell_trace) (err : Error) :
    count is_pipeline (shell_calls t) = 0%nat ->
    count is_finished (shell_calls t) = 0%nat ->
    main_shape hs t (inl err)
| PipelineFailed parser args formatter handler logger completed
    (w0 : World) (err : Error) :
    result_of (epoch_run (pipeline_of hs)
                 (Args.Animal args, Args.Day args, Args.Epoch args) w0)
      = inl err ->
    main_shape hs
      (preamble parser args formatter handler logger completed
       ++ map embed
            (trace_of (epoch_run (pipeline_of hs)
                         (Args.Animal args, Args.Day args, Args.Epoch args)
                         w0)))
      (inl err)
| PipelineDone parser args formatter handler logger completed
    (w0 : World) (a : shell_answer) (r : Error + unit) :
    result_of (epoch_run (pipeline_of hs)
                 (Args.Animal args, Args.Day args, Args.Epoch args) w0)
      = inr tt ->
    (a = ShNone /\ r = inr tt) \/ (exists err, a = ShRaised err /\ r = inl err) ->
    main_shape hs
      (preamble parser args formatter handler logger completed
       ++ map embed
            (trace_of (epoch_run (pipeline_of hs)
                         (Args.Animal args, Args.Day args, Args.Epoch args)
                         w0))
       ++ [(LoggerInfo logger "Finished Processing", a)])
      r.

End Script.

(** Stub libraries for the script: the objects are numbers, and [rstrip]
    drops the trailing ASCII whitespace (codes 9 to 13 and 28 to 32). *)
Definition ascii_space (a : Ascii.ascii) : bool :=
  let n := Ascii.nat_of_ascii a in
  ((9 <=? n) && (n <=? 13) || (28 <=? n) && (n <=? 32))%nat.

Fixpoint rstrip_stub (s : string) : string :=
  match s with
  | EmptyString => EmptyString
  | String a s' =>
      match rstrip_stub s' with
      | EmptyString => if ascii_space a then EmptyString else String a EmptyString
      | rest => String a rest
      end
  end.

Definition stub_shell_types : ShellTypes := {|
  Parser := nat;
  Formatter := nat;
  Handler := nat;
  Logger := nat;
  rstrip := rstrip_stub
|}.

Definition canned_shell (args : Args.t) (completed : CompletedProcess.t)
    (c : @shell_call stub_types stub_shell_types)
  : @shell_response stub_types stub_shell_types c :=
  match c return @shell_response stub_types stub_shell_types c with
  | ArgumentParser => 1%nat
  | ParseArgs _ => args
  | NewFormatter _ => 2%nat
  | StreamHandler _ => 3%nat
  | GetLogger => 4%nat
  | SubprocessRun _ => completed
  | AddArgument _ _
  | SetFormatter _ _
  | AddHandler _ _
  | SetLevel _ _
  | Signal _ _
  | LoggerInfo _ _ => tt
  | Pipeline c => canned c
  end.

Definition stub_shell (args : Args.t) (completed : CompletedProcess.t)
    (broken : @shell_call stub_types stub_shell_types -> bool)
  : @ShellCollaborators stub_types stub_shell_types :=
  fun c w =>
    (S w, if broken c then inl "collaborator failed"%string
          else inr (canned_shell args completed c)).

(** Other collaborators: the detector finds two ripples, the loader has
    twelve tetrodes with the same tetrode information, the classifier
    returns the same table; they leave the world as it is. *)
Definition canned_other (c : @call stub_types) : @response stub_types c :=
  match c return @response stub_types c with
  | DetectEpochRipples _ _ _ => [(40, 95); (610, 700)]
  | GetEpochLfps _ _ => (12%nat, ["CA1"; "CA1"; "PFC"])
  | DecodeRippleClusterless _ _ _ => (["inbound"; "forward"], tt)
  | SaveTetrodePairInfo _ _
  | SaveMultitaperParameters _ _ _
  | SaveRippleInfo _ _ => tt
  | RippleTriggeredCoherence _ _ _ _
  | RippleTriggeredCanonicalCoherence _ _ _ _ _ _
  | CoherenceByRippleType _ _ _ _ _
  | CanonicalCoherenceByRippleType _ _ _ _ _ _ _ => tt
  end.

Definition working_other : @Collaborators stub_types :=
  fun c w => (w, inr (canned_other c)).

(** Collaborators whose classifier raises, and collaborators whose
    canonical ripple-triggered coherence raises for the ripple band. *)
Definition classifier_down : @Collaborators stub_types := stub is_classifier.
Definition ripple_band_down : @Collaborators stub_types :=
  stub (fun c => is_triggered_canonical c && names "ripple_frequencies" c).

(** A command line naming an animal that is not in [animals], and a git
    that fails. *)
Definition unknown_animal_args : Args.t := {|
  Args.Animal := "XYZ";
  Args.Day := 3;
  Args.Epoch := 2;
  Args.log_level := INFO
|}.

Definition git_failed : CompletedProcess.t := {|
  CompletedProcess.returncode := 128;
  CompletedProcess.stdout := ""
|}.

Definition script_stub : @ShellCollaborators stub_types stub_shell_types :=
  stub_shell unknown_animal_args git_failed (fun _ => false).

(* ===================================================================== *)
(** ** Running programs: general facts *)
(* ===================================================================== *)

Ltac simpl_run := unfold trace_of, result_of, world_of, calls in *; simpl in *.

Section RunFacts.
Context `{PipelineTypes}.
Variable h : Collaborators.

Lemma run_bind {A B : Type} (p : prog A) (f : A -> prog B) (w : World) :
  run h (bind p f) w =
  match run h p w with
  | (w1, t1, inl e) => (w1, t1, inl e)
  | (w1, t1, inr a) =>
      let '(w2, t2, r) := run h (f a) w1 in (w2, t1 ++ t2, r)
  end.
Proof.
  revert w. induction p as [a | c k IH]; intros w; simpl.
  - destruct (run h (f a) w) as [[w2 t2] r]. reflexivity.
  - destruct (h c w) as [w1 [e | v]]; [reflexivity |].
    rewrite IH. destruct (run h (k v) w1) as [[w2 t2] [e | a]]; [reflexivity |].
    destruct (run h (f a) w2) as [[w3 t3] r]. reflexivity.
Qed.

Lemma emits_Ret {A : Type} (a : A) : emits h (Ret a) [].
Proof. intros w. simpl. split; [apply prefix_nil | reflexivity]. Qed.

Lemma emits_Call {A : Type} (c : call) (k : response c -> prog A) cs :
  (forall v, emits h (k v) cs) -> emits h (Call c k) (c :: cs).
Proof.
  intros Hk w. simpl. destruct (h c w) as [w1 [e | v]].
  - simpl. split; [| discriminate].
    apply (prefix_cons c []), prefix_nil.
  - destruct (Hk v w1) as [Hpre Hok].
    destruct (run h (k v) w1) as [[w2 t] r]. simpl_run. split.
    + apply prefix_cons, Hpre.
    + intros a Ha. f_equal. eapply Hok, Ha.
Qed.

Lemma emits_bind {A B : Type} (p : prog A) (f : A -> prog B) cs1 cs2 :
  emits h p cs1 -> (forall a, emits h (f a) cs2) ->
  emits h (bind p f) (cs1 ++ cs2).
Proof.
  intros Hp Hf w. rewrite run_bind. destruct (Hp w) as [Hpre Hok].
  destruct (run h p w) as [[w1 t1] [e | a]]; simpl_run.
  - split; [| discriminate]. apply prefix_app_r, Hpre.
  - specialize (Hok a eq_refl). destruct (Hf a w1) as [Hpre2 Hok2].
    destruct (run h (f a) w1) as [[w2 t2] r]. simpl_run.
    rewrite map_app, Hok. split.
    + apply prefix_app, Hpre2.
    + intros b Hb. f_equal. eapply Hok2, Hb.
Qed.

Lemma emits_for {X : Type} (xs : list X) (body : X -> prog unit)
    (g : X -> list call) :
  (forall x, emits h (body x) (g x)) ->
  emits h (for_ xs body) (flat_map g xs).
Proof.
  intros Hbody. induction xs as [| x xs IH]; simpl.
  - apply emits_Ret.
  - apply emits_bind; [apply Hbody | intros _; exact IH].
Qed.

(** A run fails only with the exception of the last call it made; every
    call before the last returned; a run that returns saw no exception. *)
Lemma answer_of_returned (c : call) (v : response c) :
  returned (c, answer_of c v) = true.
Proof. destruct c; reflexivity. Qed.

Lemma run_failure {A : Type} (p : prog A) (w : World) :
  match result_of (run h p w) with
  | inl e => exists t c, trace_of (run h p w) = t ++ [(c, Raised e)]
                         /\ forallb returned t = true
  | inr _ => forallb returned (trace_of (run h p w)) = true
  end.
Proof.
  revert w. induction p as [a | c k IH]; intros w; simpl.
  - reflexivity.
  - destruct (h c w) as [w1 [e | v]]; simpl_run.
    + exists [], c. split; reflexivity.
    + specialize (IH v w1).
      destruct (run h (k v) w1) as [[w2 t] [e | a]]; simpl_run.
      * destruct IH as (t0 & c0 & -> & Hall).
        exists ((c, answer_of c v) :: t0), c0. split; [reflexivity |].
        simpl. rewrite Hall. rewrite answer_of_returned. reflexivity.
      * rewrite IH. rewrite answer_of_returned. reflexivity.
Qed.

End RunFacts.

(* ===================================================================== *)
(** ** The shape of a run of the orchestrator *)
(* ===================================================================== *)

Section Shape.
Context `{PipelineTypes}.
Variable h : Collaborators.

Ltac straight_line :=
  repeat (apply emits_Call; intros ?); apply emits_Ret.

Lemma emits_triggered_loop epoch_index ripple_times lfps tetrode_info
    (catalog : Catalog) :
  emits h
    (for_ catalog (fun '(parameters_name, parameters) =>
       ripple_triggered_coherence
         lfps ripple_times parameters_name parameters ;;
       ripple_triggered_canonical_coherence
         lfps epoch_index tetrode_info ripple_times
         parameters_name parameters ;;
       save_multitaper_parameters epoch_index parameters_name parameters)%prog)
    (triggered_calls epoch_index ripple_times lfps tetrode_info catalog).
Proof.
  unfold triggered_calls. apply emits_for. intros [name params].
  simpl. straight_line.
Qed.

Lemma emits_stratified_loops epoch_index lfps tetrode_info ripple_info
    (catalog : Catalog) (covariates : list string) :
  emits h
    (for_ covariates (fun covariate =>
       for_ catalog (fun '(parameters_name, parameters) =>
         coherence_by_ripple_type
           lfps ripple_info covariate parameters_name parameters ;;
         _ <- canonical_coherence_by_ripple_type
           lfps epoch_index tetrode_info ripple_info covariate
           parameters_name parameters ;;
         Ret tt)%prog))
    (stratified_calls epoch_index lfps tetrode_info ripple_info
       catalog covariates).
Proof.
  unfold stratified_calls. apply emits_for. intros covariate.
  apply emits_for. intros [name params]. simpl. straight_line.
Qed.

Lemma run_call (c : call) (w : World) :
  run h (Call c Ret) w =
  match h c w with
  | (w1, inl e) => (w1, [(c, Raised e)], inl e)
  | (w1, inr v) => (w1, [(c, answer_of c v)], inr v)
  end.
Proof. simpl. destruct (h c w) as [w1 [e | v]]; reflexivity. Qed.

Lemma run_Call_nonempty {A : Type} (c : call) (k : response c -> prog A)
    (w : World) :
  trace_of (run h (Call c k) w) <> [].
Proof.
  simpl. destruct (h c w) as [w1 [e | v]]; [discriminate |].
  destruct (run h (k v) w1) as [[w2 t] r]. discriminate.
Qed.

Lemma emits_after_classified epoch_index lfps tetrode_info ripple_info
    (catalog : Catalog) (covariates : list string) :
  emits h
    (save_ripple_info epoch_index ripple_info ;;
     for_ covariates (fun covariate =>
       for_ catalog (fun '(parameters_name, parameters) =>
         coherence_by_ripple_type
           lfps ripple_info covariate parameters_name parameters ;;
         _ <- canonical_coherence_by_ripple_type
           lfps epoch_index tetrode_info ripple_info covariate
           parameters_name parameters ;;
         Ret tt)))%prog
    (SaveRippleInfo epoch_index ripple_info
     :: stratified_calls epoch_index lfps tetrode_info ripple_info
          catalog covariates).
Proof.
  apply (emits_bind h _ _ [SaveRippleInfo epoch_index ripple_info]).
  - unfold save_ripple_info. apply emits_Call. intros v. apply emits_Ret.
  - intros _. apply emits_stratified_loops.
Qed.

(** Every run of the orchestrator has one of the four shapes. *)
Lemma run_estimate_shape (catalog : Catalog) (covariates : list string)
    (epoch_index : EpochIndex) (w w' : World) (t : trace) (r : Error + unit) :
  run h (estimate_ripple_coherence_over catalog covariates epoch_index) w
    = (w', t, r) ->
  run_shape catalog covariates epoch_index t r.
Proof.
  unfold estimate_ripple_coherence_over. intros Hrun.
  rewrite run_bind in Hrun. unfold detect_epoch_ripples in Hrun.
  rewrite (run_call (DetectEpochRipples epoch_index animals sampling_frequency))
    in Hrun.
  destruct (h (DetectEpochRipples epoch_index animals sampling_frequency) w)
    as [w1 [err | ripple_times]].
  { injection Hrun as <- <- <-. apply DetectorFailed. }
  cbv beta iota in Hrun. rewrite run_bind in Hrun.
  unfold get_epoch_lfps in Hrun.
  rewrite (run_call (GetEpochLfps epoch_index animals)) in Hrun.
  destruct (h (GetEpochLfps epoch_index animals) w1)
    as [w2 [err | [lfps tetrode_info]]].
  { injection Hrun as <- <- <-. apply LoaderFailed. }
  cbv beta iota in Hrun. rewrite run_bind in Hrun.
  unfold save_tetrode_pair_info in Hrun.
  rewrite (run_call (SaveTetrodePairInfo epoch_index tetrode_info)) in Hrun.
  destruct (h (SaveTetrodePairInfo epoch_index tetrode_info) w2)
    as [w3 [err | []]].
  { injection Hrun as <- <- <-.
    apply StoppedBeforeClassified; [discriminate |].
    apply (prefix_cons _ []), prefix_nil. }
  cbv beta iota in Hrun. rewrite run_bind in Hrun.
  pose proof (emits_triggered_loop epoch_index ripple_times lfps
                tetrode_info catalog w3) as [Hpre1 Hok1].
  destruct (run h (for_ catalog _) w3) as [[w4 t1] [err | []]].
  { injection Hrun as <- <- <-. simpl_run.
    apply StoppedBeforeClassified; [discriminate |]. simpl_run.
    apply prefix_cons, prefix_app_r, Hpre1. }
  specialize (Hok1 tt eq_refl).
  cbv beta iota in Hrun. rewrite run_bind in Hrun.
  unfold decode_ripple_clusterless in Hrun.
  rewrite (run_call (DecodeRippleClusterless epoch_index animals ripple_times))
    in Hrun.
  destruct (h (DecodeRippleClusterless epoch_index animals ripple_times) w4)
    as [w5 [err | [ripple_info rest]]].
  { injection Hrun as <- <- <-. simpl_run.
    apply StoppedBeforeClassified; [discriminate |]. simpl_run.
    rewrite map_app, Hok1. simpl. reflexivity. }
  cbv beta iota in Hrun. cbn [fst] in Hrun.
  pose proof (emits_after_classified epoch_index lfps tetrode_info
                ripple_info catalog covariates w5) as [Hpre2 Hok2].
  pose proof (run_Call_nonempty
                (SaveRippleInfo epoch_index ripple_info)
                (fun _ => for_ covariates (fun covariate =>
                   for_ catalog (fun '(parameters_name, parameters) =>
                     coherence_by_ripple_type
                       lfps ripple_info covariate parameters_name parameters ;;
                     _ <- canonical_coherence_by_ripple_type
                       lfps epoch_index tetrode_info ripple_info covariate
                       parameters_name parameters ;;
                     Ret tt)))%prog w5) as Hne.
  change (Call (SaveRippleInfo epoch_index ripple_info) _)
    with (save_ripple_info epoch_index ripple_info ;;
          for_ covariates (fun covariate =>
            for_ catalog (fun '(parameters_name, parameters) =>
              coherence_by_ripple_type
                lfps ripple_info covariate parameters_name parameters ;;
              _ <- canonical_coherence_by_ripple_type
                lfps epoch_index tetrode_info ripple_info covariate
                parameters_name parameters ;;
              Ret tt)))%prog in Hne.
  destruct (run h _ w5) as [[w6 t2] r2].
  injection Hrun as <- <- <-. simpl_run.
  apply (Classified _ _ _ ripple_times lfps tetrode_info
           ((SaveTetrodePairInfo epoch_index tetrode_info, ReturnedNone) :: t1)
           ripple_info rest t2 r2).
  - simpl_run. f_equal. exact Hok1.
  - exact Hne.
  - exact Hpre2.
  - exact Hok2.
Qed.
End Shape.

(* ===================================================================== *)
(** ** Counting in lists *)
(* ===================================================================== *)

Section Counting.
Context {X : Type}.
Implicit Types (P Q : X -> bool) (l : list X).

Lemma count_app P l1 l2 : count P (l1 ++ l2) = (count P l1 + count P l2)%nat.
Proof. induction l1 as [| x l1 IH]; simpl; [reflexivity | rewrite IH; lia]. Qed.

Lemma count_prefix_le P l1 l2 :
  l1 `prefix_of` l2 -> (count P l1 <= count P l2)%nat.
Proof. intros [k ->]. rewrite count_app. lia. Qed.

Lemma count_prefix_zero P l1 l2 :
  l1 `prefix_of` l2 -> count P l2 = 0%nat -> count P l1 = 0%nat.
Proof. intros Hpre Hz. apply (count_prefix_le P) in Hpre. lia. Qed.

Lemma count_zero_In P l x : count P l = 0%nat -> In x l -> P x = false.
Proof.
  induction l as [| y l IH]; simpl; [contradiction |].
  intros Hz [-> | Hin].
  - destruct (P x); [discriminate | reflexivity].
  - apply IH; [| exact Hin]. destruct (P y); [discriminate | exact Hz].
Qed.

(** Splitting a concatenation at an element that is not in its head. *)
Lemma split_in_tail Q (hd tl pre post : list X) (c : X) :
  count Q hd = 0%nat -> Q c = true -> hd ++ tl = pre ++ c :: post ->
  exists mid, pre = hd ++ mid /\ tl = mid ++ c :: post.
Proof.
  revert pre. induction hd as [| x hd IH]; intros pre Hz Hc Heq; simpl in *.
  - exists pre. split; [reflexivity | exact Heq].
  - destruct (Q x) eqn:Hx; [discriminate |]. simpl in Hz.
    destruct pre as [| y pre]; simpl in Heq.
    + injection Heq as -> _. congruence.
    + injection Heq as <- Heq. destruct (IH pre Hz Hc Heq) as (mid & -> & ->).
      exists mid. split; reflexivity.
Qed.

Lemma count_between P (lo l hi : list X) (n : nat) :
  lo `prefix_of` l -> l `prefix_of` hi ->
  count P lo = n -> count P hi = n -> count P l = n.
Proof.
  intros Hlo Hhi Hn1 Hn2.
  apply (count_prefix_le P) in Hlo. apply (count_prefix_le P) in Hhi. lia.
Qed.

Lemma filter_prefix P (l1 l2 : list X) :
  l1 `prefix_of` l2 -> List.filter P l1 `prefix_of` List.filter P l2.
Proof. intros [k ->]. rewrite List.filter_app. apply prefix_app_r. reflexivity. Qed.

Lemma prefix_In (l1 l2 : list X) (x : X) :
  l1 `prefix_of` l2 -> In x l1 -> In x l2.
Proof. intros [k ->] Hin. apply in_or_app. left. exact Hin. Qed.

End Counting.

Section Order.
Context `{PipelineTypes}.

Lemma preceded_by_app P n Q (hd tl : list call) :
  count Q hd = 0%nat -> count P hd = n -> count P tl = 0%nat ->
  preceded_by P n Q (hd ++ tl).
Proof.
  intros HQ HP Htl pre c post Heq Hc.
  destruct (split_in_tail Q hd tl pre post c HQ Hc Heq) as (mid & -> & ->).
  rewrite count_app in *. lia.
Qed.

Lemma preceded_by_prefix P n Q (l1 l2 : list call) :
  l1 `prefix_of` l2 -> preceded_by P n Q l2 -> preceded_by P n Q l1.
Proof.
  intros [k ->] Hl2 pre c post -> Hc.
  apply (Hl2 pre c (post ++ k)); [| exact Hc].
  rewrite <- app_assoc. reflexivity.
Qed.

Lemma preceded_by_none P n Q (l : list call) :
  count Q l = 0%nat -> preceded_by P n Q l.
Proof.
  intros Hz pre c post -> Hc.
  assert (Q c = false) as Hf; [| congruence].
  apply (count_zero_In Q (pre ++ c :: post)); [exact Hz |].
  apply in_or_app. right. left. reflexivity.
Qed.

(** What a run that went past the loader made first. *)
Lemma stopped_calls (t1 : trace) (c : call) (l : list call) :
  t1 <> [] -> calls t1 `prefix_of` c :: l ->
  exists rest, calls t1 = c :: rest /\ rest `prefix_of` l.
Proof.
  destruct t1 as [| [c1 a1] t1]; [contradiction |]. intros _ Hpre. simpl in *.
  pose proof (prefix_cons_inv_1 _ _ _ _ Hpre) as ->.
  apply prefix_cons_inv_2 in Hpre. eauto.
Qed.

End Order.

(* ===================================================================== *)
(** ** Epoch runs *)
(* ===================================================================== *)

Section EpochRuns.
Context `{PipelineTypes}.
Variable h : Collaborators.

Lemma epoch_run_shape (epoch_index : EpochIndex) (w : World) :
  run_shape multitaper_parameters ripple_covariates epoch_index
    (trace_of (epoch_run h epoch_index w))
    (result_of (epoch_run h epoch_index w)).
Proof.
  unfold epoch_run, estimate_ripple_coherence.
  destruct (run h _ w) as [[w' t] r] eqn:Hrun.
  exact (run_estimate_shape h _ _ _ _ _ _ _ Hrun).
Qed.

(** A run that returns made all the calls of [full_calls], with the
    values the detector, the loader and the classifier returned. *)
Lemma completed_run_over (catalog : Catalog) (covariates : list string)
    (epoch_index : EpochIndex) (w w' : World) (t : trace) :
  run h (estimate_ripple_coherence_over catalog covariates epoch_index) w
    = (w', t, inr tt) ->
  exists ripple_times lfps tetrode_info ripple_info rest,
    calls t =
      full_calls catalog covariates epoch_index
        ripple_times lfps tetrode_info ripple_info
    /\ In (DetectEpochRipples epoch_index animals sampling_frequency,
           ReturnedRippleTimes ripple_times) t
    /\ In (GetEpochLfps epoch_index animals,
           ReturnedLfps lfps tetrode_info) t
    /\ In (DecodeRippleClusterless epoch_index animals ripple_times,
           ReturnedDecoded ripple_info rest) t.
Proof.
  intros Hrun. apply run_estimate_shape in Hrun.
  inversion Hrun
    as [| | | rt lfps ti t1 ri rest t2 r Ht1 Hne Hpre Hfull Ht Hr]; subst.
  exists rt, lfps, ti, ri, rest. repeat split.
  - specialize (Hfull tt eq_refl).
    unfold full_calls, calls in *. simpl. rewrite map_app. simpl.
    rewrite Ht1, Hfull. reflexivity.
  - left. reflexivity.
  - right. left. reflexivity.
  - right. right. apply in_or_app. right. left. reflexivity.
Qed.

Lemma completed_run (epoch_index : EpochIndex) (w : World) :
  completes h epoch_index w ->
  exists ripple_times lfps tetrode_info ripple_info rest,
    calls (trace_of (epoch_run h epoch_index w)) =
      full_calls multitaper_parameters ripple_covariates epoch_index
        ripple_times lfps tetrode_info ripple_info
    /\ In (DetectEpochRipples epoch_index animals sampling_frequency,
           ReturnedRippleTimes ripple_times)
          (trace_of (epoch_run h epoch_index w))
    /\ In (GetEpochLfps epoch_index animals,
           ReturnedLfps lfps tetrode_info)
          (trace_of (epoch_run h epoch_index w))
    /\ In (DecodeRippleClusterless epoch_index animals ripple_times,
           ReturnedDecoded ripple_info rest)
          (trace_of (epoch_run h epoch_index w)).
Proof.
  unfold completes, epoch_run, estimate_ripple_coherence.
  destruct (run h _ w) as [[w' t] r] eqn:Hrun. unfold result_of, trace_of.
  simpl. intros ->. exact (completed_run_over _ _ _ _ _ _ Hrun).
Qed.

(** The calls of an epoch run lie between what the run has certainly done
    and what it can do at most, by where it stopped. *)
Lemma epoch_run_bounds (epoch_index : EpochIndex) (w : World) :
  let t := trace_of (epoch_run h epoch_index w) in
  let r := result_of (epoch_run h epoch_index w) in
  let detect := DetectEpochRipples epoch_index animals sampling_frequency in
  let load := GetEpochLfps epoch_index animals in
  (exists err, t = [(detect, Raised err)] /\ r = inl err)
  \/ (exists rt err,
        t = [(detect, ReturnedRippleTimes rt); (load, Raised err)]
        /\ r = inl err)
  \/ (exists rt lfps ti t' err,
        t = (detect, ReturnedRippleTimes rt) :: (load, ReturnedLfps lfps ti) :: t'
        /\ r = inl err
        /\ [detect; load; SaveTetrodePairInfo epoch_index ti]
             `prefix_of` calls t
        /\ calls t `prefix_of`
             [detect; load; SaveTetrodePairInfo epoch_index ti]
             ++ triggered_calls epoch_index rt lfps ti multitaper_parameters
             ++ [DecodeRippleClusterless epoch_index animals rt])
  \/ (exists rt lfps ti ri rest t1 t2,
        t = (detect, ReturnedRippleTimes rt) :: (load, ReturnedLfps lfps ti)
            :: t1
            ++ (DecodeRippleClusterless epoch_index animals rt,
                ReturnedDecoded ri rest) :: t2
        /\ calls t1 = SaveTetrodePairInfo epoch_index ti
                      :: triggered_calls epoch_index rt lfps ti
                           multitaper_parameters
        /\ ([detect; load; SaveTetrodePairInfo epoch_index ti]
             ++ triggered_calls epoch_index rt lfps ti multitaper_parameters
             ++ [DecodeRippleClusterless epoch_index animals rt;
                 SaveRippleInfo epoch_index ri])
             `prefix_of` calls t
        /\ calls t `prefix_of`
             full_calls multitaper_parameters ripple_covariates epoch_index
               rt lfps ti ri
        /\ (r = inr tt ->
            calls t = full_calls multitaper_parameters ripple_covariates
                        epoch_index rt lfps ti ri)).
Proof.
  intros t r detect load. subst t r.
  destruct (epoch_run_shape epoch_index w)
    as [err | rt err | rt lfps ti t1 err Hne Hpre
        | rt lfps ti t1 ri rest t2 r Ht1 Hne Hpre Hfull].
  - left. eauto.
  - right. left. eauto.
  - right. right. left. exists rt, lfps, ti, t1, err.
    split; [reflexivity |]. split; [reflexivity |].
    destruct (stopped_calls t1 _ _ Hne Hpre) as (rest' & Hc & Hrest).
    unfold calls in *. cbn [map fst]. rewrite Hc. split.
    + apply (prefix_app [detect; load; SaveTetrodePairInfo epoch_index ti] []),
        prefix_nil.
    + apply (prefix_app [detect; load; SaveTetrodePairInfo epoch_index ti]).
      exact Hrest.
  - right. right. right. exists rt, lfps, ti, ri, rest, t1, t2.
    split; [reflexivity |]. split; [exact Ht1 |].
    destruct (stopped_calls t2 _ _ Hne Hpre) as (rest' & Hc & Hrest).
    unfold calls in *. cbn [map fst]. rewrite map_app. cbn [map fst].
    rewrite Ht1, Hc. unfold full_calls.
    set (trig := triggered_calls epoch_index rt lfps ti multitaper_parameters)
      in *.
    set (strat := stratified_calls epoch_index lfps ti ri
                    multitaper_parameters ripple_covariates) in *.
    clearbody trig strat.
    split; [| split].
    + exists rest'. simpl. rewrite <- !app_assoc. reflexivity.
    + destruct Hrest as [k Hk]. exists k. rewrite Hk. simpl.
      rewrite <- !app_assoc. reflexivity.
    + intros ->. specialize (Hfull tt eq_refl).
      rewrite Hc in Hfull. injection Hfull as ->. reflexivity.
Qed.

End EpochRuns.

(* ===================================================================== *)
(** ** The tables *)
(* ===================================================================== *)

(** C6: the Parameter Catalog has exactly eight entries, under eight
    different names, and in every entry [window_of_interest[0] <
    window_of_interest[1]] (as floats) and [desired_frequencies[0] <
    desired_frequencies[1]] (as integers). *)
Theorem catalog_has_eight_ordered_entries :
  length multitaper_parameters = 8%nat /\
  NoDup (map fst multitaper_parameters) /\
  Forall (fun entry =>
            PrimFloat.ltb (fst (Params.window_of_interest (snd entry)))
                          (snd (Params.window_of_interest (snd entry))) = true /\
            fst (Params.desired_frequencies (snd entry))
              < snd (Params.desired_frequencies (snd entry)))
         multitaper_parameters.
Proof.
  split; [reflexivity |]. split.
  - apply NoDup_ListNoDup. simpl.
    repeat (constructor; [simpl; intros Hin;
      repeat (destruct Hin as [Hin | Hin]; [discriminate Hin |]);
      exact Hin |]).
    constructor.
  - unfold multitaper_parameters.
    repeat (apply Forall_cons; split; [split; [reflexivity | simpl; lia] |]).
    apply Forall_nil. exact I.
Qed.

(** C10: the animal registry has exactly the keys 'HPa', 'HPb' and 'HPc',
    and the record stored under a key has that key as its [short_name]. *)
Theorem animals_keys_are_short_names :
  dom animals = ({["HPa"; "HPb"; "HPc"]} : gset string) /\
  map_Forall (fun key animal => short_name animal = key) animals.
Proof.
  unfold animals. split.
  - rewrite !dom_insert_L, dom_empty_L. set_solver.
  - repeat (apply map_Forall_insert_2; [reflexivity |]).
    apply map_Forall_empty.
Qed.

(* ===================================================================== *)
(** ** The orchestrator's calls *)
(* ===================================================================== *)

Section Claims.
Context `{PipelineTypes}.

(** C5: when the Ripple Detector raises, the run consists of that one
    call: no LFP Loader, Ripple Classifier, Coherence Engine or
    Persistence Layer call is made, and the run fails with the detector's
    error. *)
Theorem detector_failure_aborts_run (h : Collaborators)
    (epoch_index : EpochIndex) (w w1 : World) (err : Error) :
  h (DetectEpochRipples epoch_index animals sampling_frequency) w
    = (w1, inl err) ->
  result_of (epoch_run h epoch_index w) = inl err /\
  trace_of (epoch_run h epoch_index w) =
    [(DetectEpochRipples epoch_index animals sampling_frequency, Raised err)] /\
  count (fun c => is_loader c || is_classifier c || is_coherence c
                  || is_persistence c)
        (calls (trace_of (epoch_run h epoch_index w))) = 0%nat.
Proof.
  intros Hdet.
  assert (epoch_run h epoch_index w =
          (w1, [(DetectEpochRipples epoch_index animals sampling_frequency,
                 Raised err)], inl err)) as ->.
  { unfold epoch_run, estimate_ripple_coherence,
      estimate_ripple_coherence_over.
    rewrite run_bind. unfold detect_epoch_ripples.
    rewrite (run_call h
               (DetectEpochRipples epoch_index animals sampling_frequency)).
    rewrite Hdet. reflexivity. }
  repeat split.
Qed.

(** C1: an epoch run that completes invokes the Coherence Engine exactly
    64 times.  The classifier call separates the two phases: the 16
    ripple-triggered calls come before it, one pairwise and one canonical
    call under each of the 8 catalog names, and the 48 covariate-stratified
    calls after it, one pairwise and one canonical call under each
    covariate and catalog name. *)
Theorem coherence_engine_invoked_64_times (h : Collaborators)
    (epoch_index : EpochIndex) (w : World) :
  completes h epoch_index w ->
  count is_coherence (calls (trace_of (epoch_run h epoch_index w))) = 64%nat /\
  exists before classifier after,
    calls (trace_of (epoch_run h epoch_index w))
      = before ++ classifier :: after /\
    is_classifier classifier = true /\
    count is_triggered before = 16%nat /\
    count is_stratified before = 0%nat /\
    count is_stratified after = 48%nat /\
    count is_triggered after = 0%nat /\
    forall name, In name (map fst multitaper_parameters) ->
      count (fun c => is_triggered_pairwise c && names name c) before = 1%nat /\
      count (fun c => is_triggered_canonical c && names name c) before = 1%nat /\
      forall covariate, In covariate ripple_covariates ->
        count (fun c => is_stratified_pairwise c && names name c
                        && stratifies covariate c) after = 1%nat /\
        count (fun c => is_stratified_canonical c && names name c
                        && stratifies covariate c) after = 1%nat.
Proof.
  intros Hok.
  destruct (completed_run h epoch_index w Hok)
    as (rt & lfps & ti & ri & rest & -> & _).
  split; [vm_compute; reflexivity |].
  exists ([ DetectEpochRipples epoch_index animals sampling_frequency;
            GetEpochLfps epoch_index animals;
            SaveTetrodePairInfo epoch_index ti ]
          ++ triggered_calls epoch_index rt lfps ti multitaper_parameters),
    (DecodeRippleClusterless epoch_index animals rt),
    (SaveRippleInfo epoch_index ri
     :: stratified_calls epoch_index lfps ti ri
          multitaper_parameters ripple_covariates).
  split; [unfold full_calls; rewrite <- app_assoc; reflexivity |].
  do 5 (split; [vm_compute; reflexivity |]).
  intros name Hname. simpl in Hname.
  repeat (destruct Hname as [<- | Hname]; [
    do 2 (split; [vm_compute; reflexivity |]);
    intros covariate Hcov; simpl in Hcov;
    repeat (destruct Hcov as [<- | Hcov];
            [split; vm_compute; reflexivity |]);
    contradiction |]).
  contradiction.
Qed.

(** Where an entry of the catalog shows in the calls of a whole run. *)
Lemma full_calls_entry (catalog : Catalog) (covariates : list string)
    epoch_index ripple_times lfps tetrode_info ripple_info name params :
  In (name, params) catalog ->
  exists pre post,
    full_calls catalog covariates epoch_index
      ripple_times lfps tetrode_info ripple_info =
    pre
    ++ [ RippleTriggeredCoherence lfps ripple_times name params;
         RippleTriggeredCanonicalCoherence
           lfps epoch_index tetrode_info ripple_times name params;
         SaveMultitaperParameters epoch_index name params ]
    ++ post.
Proof.
  intros Hin. apply in_split in Hin as (l1 & l2 & ->).
  unfold full_calls, triggered_calls. rewrite flat_map_app. simpl.
  eexists (_ :: _ :: _ :: flat_map _ l1), _. simpl.
  rewrite <- app_assoc. simpl. reflexivity.
Qed.

Lemma flat_map_prefix {X Y : Type} (f : X -> list Y) (l1 l2 : list X) :
  l1 `prefix_of` l2 -> flat_map f l1 `prefix_of` flat_map f l2.
Proof. intros [k ->]. rewrite flat_map_app. apply prefix_app_r. reflexivity. Qed.

(** C8: the covariate-stratified phase visits the covariates in the order
    'session_time', 'ripple_trajectory', 'ripple_direction' and, under each
    covariate, every catalog entry in catalog order: the (covariate, name)
    pairs of the stratified calls of any run are an initial part of the
    covariate-major product, each pair once for the pairwise and once for
    the canonical call, and all of it when the run completes. *)
Theorem stratified_phase_is_covariate_major (h : Collaborators)
    (epoch_index : EpochIndex) (w : World) :
  ripple_covariates = ["session_time"; "ripple_trajectory"; "ripple_direction"] /\
  strata (calls (trace_of (epoch_run h epoch_index w)))
    `prefix_of`
    flat_map (fun s => [s; s])
      (list_prod ripple_covariates (map fst multitaper_parameters)) /\
  (completes h epoch_index w ->
   strata (calls (trace_of (epoch_run h epoch_index w)))
     = flat_map (fun s => [s; s])
         (list_prod ripple_covariates (map fst multitaper_parameters)) /\
   pairwise_strata (calls (trace_of (epoch_run h epoch_index w)))
     = list_prod ripple_covariates (map fst multitaper_parameters) /\
   canonical_strata (calls (trace_of (epoch_run h epoch_index w)))
     = list_prod ripple_covariates (map fst multitaper_parameters)).
Proof.
  split; [reflexivity |]. split.
  - destruct (epoch_run_shape h epoch_index w)
      as [err | rt err | rt lfps ti t1 err Hne Hpre
          | rt lfps ti t1 ri rest t2 r Ht1 Hne Hpre Hfull].
    + apply prefix_nil.
    + apply prefix_nil.
    + apply (flat_map_prefix
               (fun c => match c with
                         | CoherenceByRippleType _ _ covariate name _
                         | CanonicalCoherenceByRippleType _ _ _ _ covariate name _ =>
                             [(covariate, name)]
                         | _ => []
                         end)) in Hpre.
      apply prefix_nil_inv in Hpre.
      unfold strata, calls in *. simpl. rewrite Hpre. apply prefix_nil.
    + apply (flat_map_prefix
               (fun c => match c with
                         | CoherenceByRippleType _ _ covariate name _
                         | CanonicalCoherenceByRippleType _ _ _ _ covariate name _ =>
                             [(covariate, name)]
                         | _ => []
                         end)) in Hpre.
      unfold strata, calls in *. simpl. rewrite map_app, flat_map_app, Ht1.
      simpl. exact Hpre.
  - intros Hok.
    destruct (completed_run h epoch_index w Hok)
      as (rt & lfps & ti & ri & rest & -> & _).
    repeat split.
Qed.

(** *** Determinism *)

Lemma answer_of_inj (c : call) (v1 v2 : response c) :
  answer_of c v1 = answer_of c v2 -> v1 = v2.
Proof.
  destruct c; simpl in *; intros Heq;
    try (destruct v1, v2; reflexivity);
    try (destruct v1, v2; simpl in Heq; congruence);
    congruence.
Qed.

Lemma answer_of_not_raised (c : call) (v : response c) (e : Error) :
  answer_of c v <> Raised e.
Proof. destruct c; discriminate. Qed.

(** The calls a program makes and its result are a function of what the
    collaborators answer: two runs of one program that get the same
    answers, from whatever collaborators and worlds, have the same trace
    and the same result. *)
Lemma run_determined_by_answers {A : Type} (p : prog A)
    (h1 h2 : Collaborators) (w1 w2 : World) :
  answers (trace_of (run h1 p w1)) = answers (trace_of (run h2 p w2)) ->
  trace_of (run h1 p w1) = trace_of (run h2 p w2) /\
  result_of (run h1 p w1) = result_of (run h2 p w2).
Proof.
  revert w1 w2. induction p as [a | c k IH]; intros w1 w2; simpl.
  - intros _. split; reflexivity.
  - destruct (h1 c w1) as [w1' [e1 | v1]], (h2 c w2) as [w2' [e2 | v2]].
    + simpl_run. intros Heq. injection Heq as ->. split; reflexivity.
    + destruct (run h2 (k v2) w2') as [[w2'' t2] r2]. simpl_run.
      intros Heq. injection Heq as Heq _. symmetry in Heq.
      contradiction (answer_of_not_raised _ _ _ Heq).
    + destruct (run h1 (k v1) w1') as [[w1'' t1] r1]. simpl_run.
      intros Heq. injection Heq as Heq _.
      contradiction (answer_of_not_raised _ _ _ Heq).
    + specialize (IH v1 w1' w2').
      destruct (run h1 (k v1) w1') as [[w1'' t1] r1] eqn:Hrun1.
      destruct (run h2 (k v2) w2') as [[w2'' t2] r2] eqn:Hrun2.
      simpl_run. intros Heq. injection Heq as Hv Ht.
      apply answer_of_inj in Hv. subst v2. rewrite Hrun2 in IH.
      destruct (IH Ht) as [-> ->]. split; reflexivity.
Qed.

(** The persistence calls of a run that completes: the tetrode information
    the loader returned, the catalog entries in catalog order, the first
    element of what the classifier returned. *)
Lemma persistence_calls_of_completed_run (h : Collaborators)
    (epoch_index : EpochIndex) (w : World) :
  completes h epoch_index w ->
  exists ripple_times lfps tetrode_info ripple_info rest,
    In (GetEpochLfps epoch_index animals, ReturnedLfps lfps tetrode_info)
       (trace_of (epoch_run h epoch_index w)) /\
    In (DecodeRippleClusterless epoch_index animals ripple_times,
        ReturnedDecoded ripple_info rest)
       (trace_of (epoch_run h epoch_index w)) /\
    List.filter is_persistence (calls (trace_of (epoch_run h epoch_index w)))
    = SaveTetrodePairInfo epoch_index tetrode_info
      :: map (fun entry =>
                SaveMultitaperParameters epoch_index (fst entry) (snd entry))
             multitaper_parameters
      ++ [SaveRippleInfo epoch_index ripple_info].
Proof.
  intros Hok.
  destruct (completed_run h epoch_index w Hok)
    as (rt & lfps & ti & ri & rest & Hcalls & _ & Hloader & Hclassifier).
  exists rt, lfps, ti, ri, rest. rewrite Hcalls. repeat split; assumption.
Qed.

(** *** Order of the persistence calls *)

Lemma in_calls (t : trace) (c : call) (a : answer) :
  In (c, a) t -> In c (calls t).
Proof. intros Hin. apply (in_map fst) in Hin. exact Hin. Qed.

(** C3, as the code has it: [save_tetrode_pair_info] is called at most once
    in any epoch run and before every Coherence Engine call of the run; it
    is called exactly once, with the tetrode information the loader
    returned, in every run in which the loader returns, so in every run
    that completes. *)
Theorem tetrode_info_saved_once_before_coherence (h : Collaborators)
    (epoch_index : EpochIndex) (w : World) :
  (count is_save_tetrode_pair_info
     (calls (trace_of (epoch_run h epoch_index w))) <= 1)%nat /\
  preceded_by is_save_tetrode_pair_info 1 is_coherence
    (calls (trace_of (epoch_run h epoch_index w))) /\
  (forall lfps tetrode_info,
     In (GetEpochLfps epoch_index animals, ReturnedLfps lfps tetrode_info)
        (trace_of (epoch_run h epoch_index w)) ->
     count is_save_tetrode_pair_info
       (calls (trace_of (epoch_run h epoch_index w))) = 1%nat /\
     In (SaveTetrodePairInfo epoch_index tetrode_info)
        (calls (trace_of (epoch_run h epoch_index w)))) /\
  (completes h epoch_index w ->
   count is_save_tetrode_pair_info
     (calls (trace_of (epoch_run h epoch_index w))) = 1%nat).
Proof.
  pose proof (epoch_run_bounds h epoch_index w) as Hb.
  unfold completes. cbv zeta in Hb.
  set (t := trace_of (epoch_run h epoch_index w)) in *.
  set (r := result_of (epoch_run h epoch_index w)) in *.
  clearbody t r.
  destruct Hb as [(err & -> & ->) | [(rt & err & -> & ->)
    | [(rt & lfps & ti & t' & err & Ht & -> & Hlo & Hhi)
      | (rt & lfps & ti & ri & rest & t1 & t2 & Ht & Ht1 & Hlo & Hhi & Hfull)]]].
  - split; [simpl; lia |]. split; [apply preceded_by_none; reflexivity |].
    split; [| discriminate].
    intros lfps ti [Hin | []]. discriminate Hin.
  - split; [simpl; lia |]. split; [apply preceded_by_none; reflexivity |].
    split; [| discriminate].
    intros lfps ti [Hin | [Hin | []]]; discriminate Hin.
  - assert (count is_save_tetrode_pair_info (calls t) = 1%nat) as Hone.
    { eapply count_between; [exact Hlo | exact Hhi | |]; reflexivity. }
    split; [lia |]. split.
    { eapply preceded_by_prefix; [exact Hhi |].
      apply preceded_by_app; reflexivity. }
    split; [| discriminate].
    intros lfps' ti' Hin. split; [exact Hone |].
    assert (ti' = ti) as ->.
    { assert (count is_loader (calls t) = 1%nat) as Hloader.
      { eapply count_between; [exact Hlo | exact Hhi | |]; reflexivity. }
      rewrite Ht in Hin, Hloader.
      destruct Hin as [Hin | [Hin | Hin]];
        [discriminate Hin | congruence |].
      apply in_calls in Hin. unfold calls in *. simpl in Hloader.
      apply (count_zero_In is_loader) in Hin; [discriminate Hin | lia]. }
    eapply prefix_In; [exact Hlo |]. right. right. left. reflexivity.
  - assert (count is_save_tetrode_pair_info (calls t) = 1%nat) as Hone.
    { eapply count_between; [exact Hlo | exact Hhi | |]; reflexivity. }
    split; [lia |]. split.
    { eapply preceded_by_prefix; [exact Hhi |].
      apply (preceded_by_app _ _ _
               [ DetectEpochRipples epoch_index animals sampling_frequency;
                 GetEpochLfps epoch_index animals;
                 SaveTetrodePairInfo epoch_index ti ]);
        reflexivity. }
    split; [| intros _; exact Hone].
    intros lfps' ti' Hin. split; [exact Hone |].
    assert (ti' = ti) as ->.
    { assert (count is_loader (calls t) = 1%nat) as Hloader.
      { eapply count_between; [exact Hlo | exact Hhi | |]; reflexivity. }
      rewrite Ht in Hin, Hloader.
      destruct Hin as [Hin | [Hin | Hin]];
        [discriminate Hin | congruence |].
      apply in_calls in Hin. unfold calls in *. simpl in Hloader.
      apply (count_zero_In is_loader) in Hin; [discriminate Hin | lia]. }
    eapply prefix_In; [exact Hlo |]. right. right. left. reflexivity.
Qed.

(** The RippleInfo the calls of a whole run are given is the one the
    classifier's result starts with. *)
Lemma full_calls_ripple_info epoch_index rt lfps ti ri :
  Forall (fun c => forall ri', ripple_info_of c = Some ri' -> ri' = ri)
    (full_calls multitaper_parameters ripple_covariates epoch_index
       rt lfps ti ri).
Proof.
  unfold full_calls. simpl.
  repeat (apply List.Forall_cons; [simpl; congruence |]).
  apply List.Forall_nil.
Qed.

(** C4, as the code has it: in any epoch run the Ripple Classifier is
    invoked at most once and [save_ripple_info] is called at most once,
    after the classifier call and before every covariate-stratified
    coherence call; the RippleInfo passed to [save_ripple_info] and to the
    stratified calls is the first element of what the classifier returned;
    in a run that completes both are called exactly once. *)
Theorem ripple_info_classified_then_saved (h : Collaborators)
    (epoch_index : EpochIndex) (w : World) :
  (count is_classifier
     (calls (trace_of (epoch_run h epoch_index w))) <= 1)%nat /\
  (count is_save_ripple_info
     (calls (trace_of (epoch_run h epoch_index w))) <= 1)%nat /\
  preceded_by is_classifier 1 is_save_ripple_info
    (calls (trace_of (epoch_run h epoch_index w))) /\
  preceded_by is_save_ripple_info 1 is_stratified
    (calls (trace_of (epoch_run h epoch_index w))) /\
  (forall c ripple_info,
     In c (calls (trace_of (epoch_run h epoch_index w))) ->
     ripple_info_of c = Some ripple_info ->
     exists ripple_times rest,
       In (DecodeRippleClusterless epoch_index animals ripple_times,
           ReturnedDecoded ripple_info rest)
          (trace_of (epoch_run h epoch_index w))) /\
  (completes h epoch_index w ->
   count is_classifier
     (calls (trace_of (epoch_run h epoch_index w))) = 1%nat /\
   count is_save_ripple_info
     (calls (trace_of (epoch_run h epoch_index w))) = 1%nat).
Proof.
  pose proof (epoch_run_bounds h epoch_index w) as Hb.
  unfold completes. cbv zeta in Hb.
  set (t := trace_of (epoch_run h epoch_index w)) in *.
  set (r := result_of (epoch_run h epoch_index w)) in *.
  clearbody t r.
  destruct Hb as [(err & -> & ->) | [(rt & err & -> & ->)
    | [(rt & lfps & ti & t' & err & Ht & -> & Hlo & Hhi)
      | (rt & lfps & ti & ri & rest & t1 & t2 & Ht & Ht1 & Hlo & Hhi & Hfull)]]].
  - split; [simpl; lia |]. split; [simpl; lia |].
    split; [apply preceded_by_none; reflexivity |].
    split; [apply preceded_by_none; reflexivity |].
    split; [| discriminate].
    intros c ri [<- | []]. discriminate.
  - split; [simpl; lia |]. split; [simpl; lia |].
    split; [apply preceded_by_none; reflexivity |].
    split; [apply preceded_by_none; reflexivity |].
    split; [| discriminate].
    intros c ri [<- | [<- | []]]; discriminate.
  - assert (count is_save_ripple_info (calls t) = 0%nat) as Hsave.
    { eapply count_prefix_zero; [exact Hhi | reflexivity]. }
    assert (count is_stratified (calls t) = 0%nat) as Hstrat.
    { eapply count_prefix_zero; [exact Hhi | reflexivity]. }
    split.
    { apply (count_prefix_le is_classifier) in Hhi. exact Hhi. }
    split; [lia |].
    split; [apply preceded_by_none; exact Hsave |].
    split; [apply preceded_by_none; exact Hstrat |].
    split; [| discriminate].
    intros c ri' Hin Hri. exfalso.
    assert (count (fun c => match ripple_info_of c with
                            | Some _ => true
                            | None => false
                            end) (calls t) = 0%nat) as Hnone.
    { eapply count_prefix_zero; [exact Hhi | reflexivity]. }
    apply (count_zero_In _ _ c Hnone) in Hin. rewrite Hri in Hin.
    discriminate Hin.
  - assert (count is_classifier (calls t) = 1%nat) as Hclass.
    { eapply count_between; [exact Hlo | exact Hhi | |]; reflexivity. }
    assert (count is_save_ripple_info (calls t) = 1%nat) as Hsave.
    { eapply count_between; [exact Hlo | exact Hhi | |]; reflexivity. }
    split; [lia |]. split; [lia |].
    split.
    { eapply preceded_by_prefix; [exact Hhi |].
      change (full_calls multitaper_parameters ripple_covariates epoch_index
                rt lfps ti ri)
        with (([ DetectEpochRipples epoch_index animals sampling_frequency;
                 GetEpochLfps epoch_index animals;
                 SaveTetrodePairInfo epoch_index ti ]
               ++ triggered_calls epoch_index rt lfps ti multitaper_parameters
               ++ [DecodeRippleClusterless epoch_index animals rt])
              ++ SaveRippleInfo epoch_index ri
                 :: stratified_calls epoch_index lfps ti ri
                      multitaper_parameters ripple_covariates).
      apply preceded_by_app; reflexivity. }
    split.
    { eapply preceded_by_prefix; [exact Hhi |].
      change (full_calls multitaper_parameters ripple_covariates epoch_index
                rt lfps ti ri)
        with (([ DetectEpochRipples epoch_index animals sampling_frequency;
                 GetEpochLfps epoch_index animals;
                 SaveTetrodePairInfo epoch_index ti ]
               ++ triggered_calls epoch_index rt lfps ti multitaper_parameters
               ++ [ DecodeRippleClusterless epoch_index animals rt;
                    SaveRippleInfo epoch_index ri ])
              ++ stratified_calls epoch_index lfps ti ri
                   multitaper_parameters ripple_covariates).
      apply preceded_by_app; reflexivity. }
    split; [| intros _; split; assumption].
    intros c ri' Hin Hri.
    apply (prefix_In _ _ _ Hhi) in Hin.
    pose proof (full_calls_ripple_info epoch_index rt lfps ti ri) as Hall.
    rewrite List.Forall_forall in Hall. apply (Hall c Hin) in Hri. subst ri'.
    exists rt, rest. rewrite Ht. right. right.
    apply in_or_app. right. left. reflexivity.
Qed.

(** *** No validation of the catalog *)

Lemma run_returns_when_nothing_raises {A : Type} (h : Collaborators)
    (p : prog A) :
  (forall c w, exists w1 v, h c w = (w1, inr v)) ->
  forall w, exists a, result_of (run h p w) = inr a.
Proof.
  intros Hh. induction p as [a | c k IH]; intros w; simpl.
  - exists a. reflexivity.
  - destruct (Hh c w) as (w1 & v & ->).
    destruct (IH v w1) as [a Ha].
    destruct (run h (k v) w1) as [[w2 t] r]. exists a. exact Ha.
Qed.

(** C2, as the code has it: the catalog is not validated.  Whatever the
    entries of the catalog hold, a run starts with the Ripple Detector
    call, fails only with the exception of a collaborator call, the last
    one made, and returns when no collaborator raises. *)
Theorem catalog_is_not_validated (h : Collaborators) (catalog : Catalog)
    (covariates : list string) (epoch_index : EpochIndex) (w : World) :
  (exists a rest,
     trace_of (run h (estimate_ripple_coherence_over
                        catalog covariates epoch_index) w)
     = (DetectEpochRipples epoch_index animals sampling_frequency, a) :: rest) /\
  (forall err,
     result_of (run h (estimate_ripple_coherence_over
                         catalog covariates epoch_index) w) = inl err ->
     exists t c,
       trace_of (run h (estimate_ripple_coherence_over
                          catalog covariates epoch_index) w)
       = t ++ [(c, Raised err)]) /\
  ((forall c w0, exists w1 v, h c w0 = (w1, inr v)) ->
   result_of (run h (estimate_ripple_coherence_over
                       catalog covariates epoch_index) w) = inr tt).
Proof.
  split; [| split].
  - destruct (run h _ w) as [[w' t] r] eqn:Hrun.
    apply run_estimate_shape in Hrun. destruct Hrun; eexists _, _; reflexivity.
  - intros err Herr.
    pose proof (run_failure h (estimate_ripple_coherence_over
                                 catalog covariates epoch_index) w) as Hfail.
    rewrite Herr in Hfail. destruct Hfail as (t & c & Ht & _). eauto.
  - intros Hh.
    destruct (run_returns_when_nothing_raises h
                (estimate_ripple_coherence_over catalog covariates epoch_index)
                Hh w) as [[] Ha].
    exact Ha.
Qed.

End Claims.

(* ===================================================================== *)
(** ** Further properties of the orchestrator *)
(* ===================================================================== *)

Section Further.
Context `{PipelineTypes}.

Lemma preceded_byb_sound P n Q (l : list call) (seen : nat) :
  preceded_byb P n Q seen l = true ->
  forall pre c post, l = pre ++ c :: post -> Q c = true ->
                     (seen + count P pre)%nat = n.
Proof.
  revert seen. induction l as [| x l IH]; intros seen Hb pre c post Heq Hc.
  - destruct pre; discriminate Heq.
  - simpl in Hb. apply andb_prop in Hb as [Hx Hrest].
    destruct pre as [| y pre]; simpl in Heq; injection Heq as <- Heq.
    + rewrite Hc in Hx. apply Nat.eqb_eq in Hx. simpl. lia.
    + specialize (IH _ Hrest pre c post Heq Hc). simpl. lia.
Qed.

Lemma preceded_by_check P n Q (l : list call) :
  preceded_byb P n Q 0 l = true -> preceded_by P n Q l.
Proof.
  intros Hb pre c post Heq Hc.
  exact (preceded_byb_sound P n Q l 0 Hb pre c post Heq Hc).
Qed.

Lemma count_length {X : Type} (l : list X) :
  count (fun _ => true) l = length l.
Proof. induction l as [| x l IH]; simpl; [reflexivity | rewrite IH; reflexivity]. Qed.

Lemma count_flat_map_const {X Y : Type} (P : X -> bool) (g : Y -> list X)
    (k : nat) (ys : list Y) :
  (forall y, count P (g y) = k) ->
  count P (flat_map g ys) = (length ys * k)%nat.
Proof.
  intros Hg. induction ys as [| y ys IH]; simpl; [reflexivity |].
  rewrite count_app, Hg, IH. reflexivity.
Qed.

Lemma forallb_prefix {X : Type} (f : X -> bool) (l1 l2 : list X) :
  l1 `prefix_of` l2 -> forallb f l2 = true -> forallb f l1 = true.
Proof.
  intros [k ->] Hall. rewrite forallb_app in Hall.
  apply andb_prop in Hall as [Hl1 _]. exact Hl1.
Qed.

(** Whatever was called before another call of the same run returned. *)
Lemma earlier_events_returned {A : Type} (h : Collaborators) (p : prog A)
    (w : World) (pre post : trace) (ev : call * answer) :
  trace_of (run h p w) = pre ++ ev :: post -> forallb returned pre = true.
Proof.
  intros Heq. pose proof (run_failure h p w) as Hfail.
  destruct (result_of (run h p w)) as [err | a].
  - destruct Hfail as (t0 & c0 & Ht & Hall). rewrite Ht in Heq.
    apply (forallb_prefix returned pre t0); [| exact Hall].
    destruct (app_eq_app _ _ _ _ Heq) as [k [[-> Hk] | [-> Hk]]].
    + exists k. reflexivity.
    + destruct k as [| x k]; [rewrite app_nil_r; reflexivity |].
      apply (f_equal (@length _)) in Hk. simpl in Hk.
      rewrite length_app in Hk. simpl in Hk. lia.
  - rewrite Heq, forallb_app in Hfail.
    apply andb_prop in Hfail as [Hpre _]. exact Hpre.
Qed.

(** The call that raised is the last call of the run, and its exception
    the result of the run. *)
Lemma raised_is_last {A : Type} (h : Collaborators) (p : prog A)
    (w : World) (c : call) (err : Error) :
  In (c, Raised err) (trace_of (run h p w)) ->
  result_of (run h p w) = inl err /\
  exists t0, trace_of (run h p w) = t0 ++ [(c, Raised err)]
             /\ forallb returned t0 = true.
Proof.
  intros Hin. pose proof (run_failure h p w) as Hfail.
  destruct (result_of (run h p w)) as [err0 | a].
  - destruct Hfail as (t0 & c0 & Ht & Hall). rewrite Ht in Hin |- *.
    apply in_app_or in Hin as [Hin | [Heq | []]].
    + rewrite forallb_forall in Hall. apply Hall in Hin. discriminate Hin.
    + injection Heq as -> ->. split; [reflexivity |]. eauto.
  - rewrite forallb_forall in Hfail. apply Hfail in Hin. discriminate Hin.
Qed.

(** A list that ends in an element of a kind and is an initial part of a
    list whose only element of that kind is the last, is that list. *)
Lemma prefix_snoc_unique (Q : call -> bool) (l L : list call) (x y : call) :
  (l ++ [x]) `prefix_of` (L ++ [y]) -> Q x = true -> count Q L = 0%nat ->
  l = L /\ x = y.
Proof.
  revert L. induction l as [| a l IH]; intros L [k Hk] Hx HL.
  - destruct L as [| z L]; simpl in Hk.
    + injection Hk as <- _. split; reflexivity.
    + injection Hk as <- _. simpl in HL. rewrite Hx in HL. discriminate HL.
  - destruct L as [| z L]; simpl in Hk.
    + injection Hk as _ Hk. destruct l; discriminate Hk.
    + injection Hk as <- Hk. simpl in HL.
      destruct (Q z); [discriminate HL |]. simpl in HL.
      destruct (IH L (ex_intro _ k Hk) Hx HL) as [-> ->].
      split; reflexivity.
Qed.

(** What the calls of a whole run are given, for any tables. *)
Lemma full_calls_given (catalog : Catalog) (covariates : list string)
    epoch_index rt lfps ti ri :
  Forall (given catalog epoch_index rt lfps ti)
    (full_calls catalog covariates epoch_index rt lfps ti ri).
Proof.
  unfold full_calls, triggered_calls, stratified_calls.
  repeat (apply Forall_app; split).
  - repeat (apply List.Forall_cons; [repeat split; simpl; congruence |]).
    apply List.Forall_nil.
  - apply List.Forall_flat_map, List.Forall_forall. intros [name params] Hin.
    repeat (apply List.Forall_cons;
            [repeat split; simpl; try congruence;
             intros entry Heq; injection Heq as <-; exact Hin |]).
    apply List.Forall_nil.
  - repeat (apply List.Forall_cons; [repeat split; simpl; congruence |]).
    apply List.Forall_nil.
  - apply List.Forall_flat_map, List.Forall_forall. intros covariate _.
    apply List.Forall_flat_map, List.Forall_forall. intros [name params] Hin.
    repeat (apply List.Forall_cons;
            [repeat split; simpl; try congruence;
             intros entry Heq; injection Heq as <-; exact Hin |]).
    apply List.Forall_nil.
Qed.

Lemma stopped_calls_given (catalog : Catalog) epoch_index rt lfps ti :
  Forall (given catalog epoch_index rt lfps ti)
    ([ DetectEpochRipples epoch_index animals sampling_frequency;
       GetEpochLfps epoch_index animals;
       SaveTetrodePairInfo epoch_index ti ]
     ++ triggered_calls epoch_index rt lfps ti catalog
     ++ [DecodeRippleClusterless epoch_index animals rt]).
Proof.
  unfold triggered_calls. repeat (apply Forall_app; split).
  - repeat (apply List.Forall_cons; [repeat split; simpl; congruence |]).
    apply List.Forall_nil.
  - apply List.Forall_flat_map, List.Forall_forall. intros [name params] Hin.
    repeat (apply List.Forall_cons;
            [repeat split; simpl; try congruence;
             intros entry Heq; injection Heq as <-; exact Hin |]).
    apply List.Forall_nil.
  - repeat (apply List.Forall_cons; [repeat split; simpl; congruence |]).
    apply List.Forall_nil.
Qed.

(** X1: every call of an epoch run, also of one that aborts, is given
    the run's epoch index, the module's registry and a (name, parameters)
    entry of the catalog, and otherwise exactly what the detector and the
    loader returned in that run: ripple times, LFPs and tetrode
    information are computed once and passed on unchanged. *)
Theorem arguments_are_passed_on (h : Collaborators)
    (epoch_index : EpochIndex) (w : World) (c : call) :
  In c (calls (trace_of (epoch_run h epoch_index w))) ->
  passes_on epoch_index (trace_of (epoch_run h epoch_index w)) c.
Proof.
  pose proof (epoch_run_bounds h epoch_index w) as Hb. cbv zeta in Hb.
  set (t := trace_of (epoch_run h epoch_index w)) in *.
  set (r := result_of (epoch_run h epoch_index w)) in *.
  clearbody t r. intros Hin.
  assert (forall rt lfps ti t',
            t = (DetectEpochRipples epoch_index animals sampling_frequency,
                 ReturnedRippleTimes rt)
                :: (GetEpochLfps epoch_index animals, ReturnedLfps lfps ti)
                :: t' ->
            given multitaper_parameters epoch_index rt lfps ti c ->
            passes_on epoch_index t c) as Hgiven.
  { intros rt lfps ti t' -> (He & Hreg & Hentry & Hrt & Hl & Hti).
    repeat split; try assumption.
    - intros rt' Hrt'. apply Hrt in Hrt' as ->. left. reflexivity.
    - intros l Hl'. apply Hl in Hl' as ->. exists ti. right. left. reflexivity.
    - intros ti' Hti'. apply Hti in Hti' as ->. exists lfps. right. left.
      reflexivity. }
  destruct Hb as [(err & -> & _) | [(rt & err & -> & _)
    | [(rt & lfps & ti & t' & err & Ht & _ & _ & Hhi)
      | (rt & lfps & ti & ri & rest & t1 & t2 & Ht & _ & _ & Hhi & _)]]].
  - destruct Hin as [<- | []]. repeat split; simpl; congruence.
  - destruct Hin as [<- | [<- | []]]; repeat split; simpl; congruence.
  - apply (Hgiven rt lfps ti t' Ht).
    pose proof (stopped_calls_given multitaper_parameters
                  epoch_index rt lfps ti) as Hall.
    rewrite List.Forall_forall in Hall. apply Hall.
    eapply prefix_In; [exact Hhi | exact Hin].
  - apply (Hgiven rt lfps ti _ Ht).
    pose proof (full_calls_given multitaper_parameters ripple_covariates
                  epoch_index rt lfps ti ri) as Hall.
    rewrite List.Forall_forall in Hall. apply Hall.
    eapply prefix_In; [exact Hhi | exact Hin].
Qed.

Lemma count_triggered_calls (P : call -> bool) (k : nat)
    epoch_index rt lfps ti (catalog : Catalog) :
  (forall name params,
     count P [ RippleTriggeredCoherence lfps rt name params;
               RippleTriggeredCanonicalCoherence
                 lfps epoch_index ti rt name params;
               SaveMultitaperParameters epoch_index name params ] = k) ->
  count P (triggered_calls epoch_index rt lfps ti catalog)
    = (length catalog * k)%nat.
Proof.
  intros Hk. unfold triggered_calls. apply count_flat_map_const.
  intros [name params]. apply Hk.
Qed.

Lemma count_stratified_calls (P : call -> bool) (k : nat)
    epoch_index lfps ti ri (catalog : Catalog) (covariates : list string) :
  (forall covariate name params,
     count P [ CoherenceByRippleType lfps ri covariate name params;
               CanonicalCoherenceByRippleType
                 lfps epoch_index ti ri covariate name params ] = k) ->
  count P (stratified_calls epoch_index lfps ti ri catalog covariates)
    = (length covariates * (length catalog * k))%nat.
Proof.
  intros Hk. unfold stratified_calls. apply count_flat_map_const.
  intros covariate. apply count_flat_map_const.
  intros [name params]. apply Hk.
Qed.

(** X2: how the work grows with the two tables.  Run over any catalog and
    any list of covariates, the orchestrator makes, when nothing raises,
    five calls of its own (detector, loader, [save_tetrode_pair_info],
    classifier, [save_ripple_info]), three per catalog entry and two per
    covariate and catalog entry; with an empty catalog it still detects,
    loads, classifies and saves, and computes no coherence. *)
Theorem calls_scale_with_tables (h : Collaborators) (catalog : Catalog)
    (covariates : list string) (epoch_index : EpochIndex)
    (w w' : World) (t : trace) :
  run h (estimate_ripple_coherence_over catalog covariates epoch_index) w
    = (w', t, inr tt) ->
  length t = (5 + 3 * length catalog
              + 2 * (length covariates * length catalog))%nat /\
  count is_triggered (calls t) = (2 * length catalog)%nat /\
  count is_stratified (calls t)
    = (2 * (length covariates * length catalog))%nat /\
  count is_persistence (calls t) = (2 + length catalog)%nat.
Proof.
  intros Hrun.
  destruct (completed_run_over h _ _ _ _ _ _ Hrun)
    as (rt & lfps & ti & ri & rest & Hcalls & _).
  assert (length t = count (fun _ => true) (calls t)) as ->.
  { rewrite count_length. unfold calls. rewrite length_map. reflexivity. }
  rewrite Hcalls. unfold full_calls. rewrite !count_app.
  rewrite (count_triggered_calls (fun _ => true) 3),
          (count_stratified_calls (fun _ => true) 2),
          (count_triggered_calls is_triggered 2),
          (count_stratified_calls is_triggered 0),
          (count_triggered_calls is_stratified 0),
          (count_stratified_calls is_stratified 2),
          (count_triggered_calls is_persistence 1),
          (count_stratified_calls is_persistence 0); try reflexivity.
  simpl. repeat split; lia.
Qed.

(** X3: what has been saved when the classifier fails.  If the
    [decode_ripple_clusterless] call raises, the run ends there with that
    exception; every call before it returned; the tetrode information and
    all eight parameter sets have been saved, nothing of them is undone,
    and neither [save_ripple_info] nor a stratified coherence call is
    made. *)
Theorem classifier_failure_keeps_earlier_saves (h : Collaborators)
    (epoch_index : EpochIndex) (w : World)
    (ripple_times : RippleTimes) (err : Error) :
  In (DecodeRippleClusterless epoch_index animals ripple_times, Raised err)
     (trace_of (epoch_run h epoch_index w)) ->
  result_of (epoch_run h epoch_index w) = inl err /\
  exists t0 lfps tetrode_info,
    trace_of (epoch_run h epoch_index w)
      = t0 ++ [(DecodeRippleClusterless epoch_index animals ripple_times,
                Raised err)] /\
    forallb returned t0 = true /\
    calls t0 =
      [ DetectEpochRipples epoch_index animals sampling_frequency;
        GetEpochLfps epoch_index animals;
        SaveTetrodePairInfo epoch_index tetrode_info ]
      ++ triggered_calls epoch_index ripple_times lfps tetrode_info
           multitaper_parameters /\
    List.filter is_persistence (calls (trace_of (epoch_run h epoch_index w)))
      = SaveTetrodePairInfo epoch_index tetrode_info
        :: map (fun entry =>
                  SaveMultitaperParameters epoch_index (fst entry) (snd entry))
               multitaper_parameters.
Proof.
  intros Hin.
  destruct (raised_is_last h _ w _ _ Hin) as (Hres & t0 & Ht & Hall).
  split; [exact Hres |].
  pose proof (epoch_run_bounds h epoch_index w) as Hb. cbv zeta in Hb.
  unfold epoch_run in *.
  set (t := trace_of (run h (estimate_ripple_coherence epoch_index) w)) in *.
  set (r := result_of (run h (estimate_ripple_coherence epoch_index) w)) in *.
  clearbody t r. subst t.
  destruct Hb as [(err' & Ht & _) | [(rt & err' & Ht & _)
    | [(rt & lfps & ti & t' & err' & Ht & _ & Hlo & Hhi)
      | (rt & lfps & ti & ri & rest & t1 & t2 & Ht & Ht1 & Hlo & Hhi & _)]]].
  - destruct t0 as [| e1 [| e2 [| e3 t0]]]; simpl in Ht; discriminate Ht.
  - destruct t0 as [| e1 [| e2 [| e3 t0]]]; simpl in Ht; discriminate Ht.
  - unfold calls in Hhi. rewrite map_app in Hhi. cbn [map fst] in Hhi.
    change ([ DetectEpochRipples epoch_index animals sampling_frequency;
              GetEpochLfps epoch_index animals;
              SaveTetrodePairInfo epoch_index ti ]
            ++ triggered_calls epoch_index rt lfps ti multitaper_parameters
            ++ [DecodeRippleClusterless epoch_index animals rt])
      with (([ DetectEpochRipples epoch_index animals sampling_frequency;
               GetEpochLfps epoch_index animals;
               SaveTetrodePairInfo epoch_index ti ]
             ++ triggered_calls epoch_index rt lfps ti multitaper_parameters)
            ++ [DecodeRippleClusterless epoch_index animals rt]) in Hhi.
    destruct (prefix_snoc_unique is_classifier _ _ _ _ Hhi eq_refl eq_refl)
      as [Hcalls Hdec].
    injection Hdec as <-.
    exists t0, lfps, ti. split; [reflexivity |]. split; [exact Hall |].
    split; [exact Hcalls |].
    unfold calls in *. rewrite map_app, List.filter_app, Hcalls. reflexivity.
  - exfalso.
    assert (count is_classifier (calls (t0 ++
              [(DecodeRippleClusterless epoch_index animals ripple_times,
                Raised err)])) = 1%nat) as Hone.
    { eapply count_between; [exact Hlo | exact Hhi | |]; reflexivity. }
    rewrite Ht in Hone, Hin. unfold calls in Hone. simpl in Hone.
    rewrite map_app, count_app in Hone. simpl in Hone.
    destruct Hin as [Hin | [Hin | Hin]]; try discriminate Hin.
    apply in_app_or in Hin as [Hin | [Hin | Hin]]; try discriminate Hin.
    + apply in_calls in Hin.
      apply (count_zero_In is_classifier) in Hin; [discriminate Hin |].
      unfold calls. lia.
    + apply in_calls in Hin.
      apply (count_zero_In is_classifier) in Hin; [discriminate Hin |].
      unfold calls. lia.
Qed.

(** X4: the stratified phase persists nothing.  In every epoch run at most
    ten persistence calls are made, and each covariate-stratified
    coherence call is made after all ten of them (tetrode information,
    eight parameter sets, ripple information) and after every earlier
    call of the run has returned. *)
Theorem persistence_is_done_before_stratified_phase (h : Collaborators)
    (epoch_index : EpochIndex) (w : World) :
  (count is_persistence
     (calls (trace_of (epoch_run h epoch_index w))) <= 10)%nat /\
  preceded_by is_persistence 10 is_stratified
    (calls (trace_of (epoch_run h epoch_index w))) /\
  (forall pre c a post,
     trace_of (epoch_run h epoch_index w) = pre ++ (c, a) :: post ->
     is_stratified c = true ->
     forallb returned pre = true /\ count is_persistence (calls pre) = 10%nat).
Proof.
  assert (count is_persistence
            (calls (trace_of (epoch_run h epoch_index w))) <= 10
          /\ preceded_by is_persistence 10 is_stratified
               (calls (trace_of (epoch_run h epoch_index w))))%nat
    as [Hle Hbefore].
  { pose proof (epoch_run_bounds h epoch_index w) as Hb. cbv zeta in Hb.
    set (t := trace_of (epoch_run h epoch_index w)) in *.
    set (r := result_of (epoch_run h epoch_index w)) in *.
    clearbody t r.
    destruct Hb as [(err & -> & _) | [(rt & err & -> & _)
      | [(rt & lfps & ti & t' & err & _ & _ & _ & Hhi)
        | (rt & lfps & ti & ri & rest & t1 & t2 & _ & _ & _ & Hhi & _)]]].
    - split; [simpl; lia | apply preceded_by_none; reflexivity].
    - split; [simpl; lia | apply preceded_by_none; reflexivity].
    - split.
      + apply (count_prefix_le is_persistence) in Hhi.
        etransitivity; [exact Hhi |]. vm_compute. lia.
      + apply preceded_by_none.
        eapply count_prefix_zero; [exact Hhi | reflexivity].
    - split.
      + apply (count_prefix_le is_persistence) in Hhi.
        etransitivity; [exact Hhi |]. vm_compute. lia.
      + eapply preceded_by_prefix; [exact Hhi |].
        apply preceded_by_check. vm_compute. reflexivity. }
  split; [exact Hle |]. split; [exact Hbefore |].
  intros pre c a post Ht Hc. split.
  - exact (earlier_events_returned h _ w pre post (c, a) Ht).
  - apply (Hbefore (calls pre) c (calls post)); [| exact Hc].
    rewrite Ht. unfold calls. rewrite map_app. reflexivity.
Qed.

(** The order of the three calls made for a catalog entry, in any run. *)
Lemma order_within_entry (h : Collaborators) (epoch_index : EpochIndex)
    (w : World) (name : string) :
  In name (map fst multitaper_parameters) ->
  preceded_by (fun c => is_triggered_pairwise c && names name c) 1
    (fun c => is_save_multitaper_parameters c && names name c)
    (calls (trace_of (epoch_run h epoch_index w))) /\
  preceded_by (fun c => is_triggered_canonical c && names name c) 1
    (fun c => is_save_multitaper_parameters c && names name c)
    (calls (trace_of (epoch_run h epoch_index w))) /\
  preceded_by (fun c => is_save_multitaper_parameters c && names name c) 0
    (fun c => is_triggered c && names name c)
    (calls (trace_of (epoch_run h epoch_index w))).
Proof.
  intros Hname.
  pose proof (epoch_run_bounds h epoch_index w) as Hb. cbv zeta in Hb.
  set (t := trace_of (epoch_run h epoch_index w)) in *.
  set (r := result_of (epoch_run h epoch_index w)) in *.
  clearbody t r. simpl in Hname.
  destruct Hb as [(err & -> & _) | [(rt & err & -> & _)
    | [(rt & lfps & ti & t' & err & _ & _ & _ & Hhi)
      | (rt & lfps & ti & ri & rest & t1 & t2 & _ & _ & _ & Hhi & _)]]].
  - repeat split; apply preceded_by_none; reflexivity.
  - repeat split; apply preceded_by_none; reflexivity.
  - repeat (destruct Hname as [<- | Hname];
            [repeat split;
             (eapply preceded_by_prefix; [exact Hhi |];
              apply preceded_by_check; vm_compute; reflexivity) |]).
    contradiction.
  - repeat (destruct Hname as [<- | Hname];
            [repeat split;
             (eapply preceded_by_prefix; [exact Hhi |];
              apply preceded_by_check; vm_compute; reflexivity) |]).
    contradiction.
Qed.

(** X5: in every epoch run, also one that aborts, the parameters of a
    catalog entry are saved only after the pairwise and the canonical
    ripple-triggered coherence call for that entry have both been made
    and have returned; when one of the two raises, the parameters of that
    entry are not saved. *)
Theorem parameters_saved_only_after_coherence_returned (h : Collaborators)
    (epoch_index : EpochIndex) (w : World) (name : string) :
  In name (map fst multitaper_parameters) ->
  (forall pre c a post,
     trace_of (epoch_run h epoch_index w) = pre ++ (c, a) :: post ->
     is_save_multitaper_parameters c = true -> names name c = true ->
     forallb returned pre = true /\
     count (fun c => is_triggered_pairwise c && names name c) (calls pre)
       = 1%nat /\
     count (fun c => is_triggered_canonical c && names name c) (calls pre)
       = 1%nat) /\
  (forall c err,
     In (c, Raised err) (trace_of (epoch_run h epoch_index w)) ->
     is_triggered c = true -> names name c = true ->
     count (fun c => is_save_multitaper_parameters c && names name c)
       (calls (trace_of (epoch_run h epoch_index w))) = 0%nat).
Proof.
  intros Hname.
  destruct (order_within_entry h epoch_index w name Hname)
    as (Hpair & Hcanon & Hsave).
  split.
  - intros pre c a post Ht Hc Hn.
    split; [exact (earlier_events_returned h _ w pre post (c, a) Ht) |].
    assert (calls (trace_of (epoch_run h epoch_index w))
            = calls pre ++ c :: calls post) as Hcalls.
    { rewrite Ht. unfold calls. rewrite map_app. reflexivity. }
    split.
    + apply (Hpair _ c _ Hcalls). rewrite Hc, Hn. reflexivity.
    + apply (Hcanon _ c _ Hcalls). rewrite Hc, Hn. reflexivity.
  - intros c err Hin Hc Hn.
    destruct (raised_is_last h _ w _ _ Hin) as (_ & t0 & Ht & _).
    unfold epoch_run in *. rewrite Ht in Hsave |- *.
    unfold calls in *. rewrite map_app in Hsave |- *. simpl in *.
    rewrite count_app. simpl.
    rewrite (Hsave (map fst t0) c [] eq_refl); [| rewrite Hc, Hn; reflexivity].
    destruct c; simpl in Hc; try discriminate Hc; reflexivity.
Qed.

(** C7, as the code has it: in every epoch run the
    [save_multitaper_parameters] calls made are, in order, the first
    entries of the catalog, each with (epoch_index, name, parameters) of
    its entry; for each catalog name there is at most one, and it comes
    after the one pairwise and the one canonical ripple-triggered
    coherence call for that name.  In a run that completes there is
    exactly one for each of the 8 entries, so exactly 8, each straight after
    the two coherence calls of its entry. *)
Theorem parameters_saved_once_per_entry (h : Collaborators)
    (epoch_index : EpochIndex) (w : World) :
  List.filter is_save_multitaper_parameters
    (calls (trace_of (epoch_run h epoch_index w)))
    `prefix_of`
    map (fun entry =>
           SaveMultitaperParameters epoch_index (fst entry) (snd entry))
        multitaper_parameters /\
  (forall name, In name (map fst multitaper_parameters) ->
     (count (fun c => is_save_multitaper_parameters c && names name c)
        (calls (trace_of (epoch_run h epoch_index w))) <= 1)%nat /\
     preceded_by (fun c => is_triggered_pairwise c && names name c) 1
       (fun c => is_save_multitaper_parameters c && names name c)
       (calls (trace_of (epoch_run h epoch_index w))) /\
     preceded_by (fun c => is_triggered_canonical c && names name c) 1
       (fun c => is_save_multitaper_parameters c && names name c)
       (calls (trace_of (epoch_run h epoch_index w)))) /\
  (completes h epoch_index w ->
   count is_save_multitaper_parameters
     (calls (trace_of (epoch_run h epoch_index w))) = 8%nat /\
   List.filter is_save_multitaper_parameters
     (calls (trace_of (epoch_run h epoch_index w)))
     = map (fun entry =>
              SaveMultitaperParameters epoch_index (fst entry) (snd entry))
           multitaper_parameters /\
   forall name params, In (name, params) multitaper_parameters ->
     count (fun c => is_save_multitaper_parameters c && names name c)
       (calls (trace_of (epoch_run h epoch_index w))) = 1%nat /\
     exists ripple_times lfps tetrode_info pre post,
       calls (trace_of (epoch_run h epoch_index w)) =
         pre
         ++ [ RippleTriggeredCoherence lfps ripple_times name params;
              RippleTriggeredCanonicalCoherence
                lfps epoch_index tetrode_info ripple_times name params;
              SaveMultitaperParameters epoch_index name params ]
         ++ post).
Proof.
  split; [| split].
  - pose proof (epoch_run_bounds h epoch_index w) as Hb. cbv zeta in Hb.
    destruct Hb as [(err & -> & _) | [(rt & err & -> & _)
      | [(rt & lfps & ti & t' & err & _ & _ & _ & Hhi)
        | (rt & lfps & ti & ri & rest & t1 & t2 & _ & _ & _ & Hhi & _)]]].
    + apply prefix_nil.
    + apply prefix_nil.
    + apply (filter_prefix is_save_multitaper_parameters) in Hhi. exact Hhi.
    + apply (filter_prefix is_save_multitaper_parameters) in Hhi. exact Hhi.
  - intros name Hname.
    destruct (order_within_entry h epoch_index w name Hname)
      as (Hpair & Hcanon & _).
    split; [| split; assumption].
    pose proof (epoch_run_bounds h epoch_index w) as Hb. cbv zeta in Hb.
    set (t := trace_of (epoch_run h epoch_index w)) in *.
    set (r := result_of (epoch_run h epoch_index w)) in *.
    clearbody t r. simpl in Hname.
    destruct Hb as [(err & -> & _) | [(rt & err & -> & _)
      | [(rt & lfps & ti & t' & err & _ & _ & _ & Hhi)
        | (rt & lfps & ti & ri & rest & t1 & t2 & _ & _ & _ & Hhi & _)]]].
    + simpl. lia.
    + simpl. lia.
    + repeat (destruct Hname as [<- | Hname];
              [etransitivity; [exact (count_prefix_le _ _ _ Hhi) |];
               vm_compute; lia |]).
      contradiction.
    + repeat (destruct Hname as [<- | Hname];
              [etransitivity; [exact (count_prefix_le _ _ _ Hhi) |];
               vm_compute; lia |]).
      contradiction.
  - intros Hok.
    destruct (completed_run h epoch_index w Hok)
      as (rt & lfps & ti & ri & rest & -> & _).
    split; [vm_compute; reflexivity |].
    split; [reflexivity |].
    intros name params Hin. split.
    + simpl in Hin.
      repeat (destruct Hin as [Hin | Hin];
              [injection Hin as <- <-; vm_compute; reflexivity |]).
      contradiction.
    + exists rt, lfps, ti. apply full_calls_entry, Hin.
Qed.

(** *** What the persistence calls depend on *)

Lemma prefix_firstn {X : Type} (l1 l2 : list X) :
  l1 `prefix_of` l2 -> l1 = firstn (length l1) l2.
Proof.
  intros [k ->]. rewrite firstn_app, Nat.sub_diag, firstn_all. simpl.
  rewrite app_nil_r. reflexivity.
Qed.

Lemma filter_firstn_same_persistence (l1 l2 : list call) :
  Forall2 same_persistence l1 l2 ->
  forall n, List.filter is_persistence (firstn n l1)
            = List.filter is_persistence (firstn n l2).
Proof.
  induction 1 as [| c1 c2 l1 l2 [Hb Heq] _ IH]; intros n.
  - destruct n; reflexivity.
  - destruct n as [| n]; [reflexivity |]. simpl. rewrite <- Hb.
    destruct (is_persistence c1) eqn:Hc1.
    + rewrite (Heq eq_refl), IH. reflexivity.
    + apply IH.
Qed.

Ltac same_persistence_lists :=
  repeat (apply List.Forall2_cons;
          [split; [reflexivity | intros Hp; try discriminate Hp; reflexivity] |]);
  apply List.Forall2_nil.

(** The persistence calls of a whole run do not depend on the ripple
    times or the LFPs. *)
Lemma full_calls_same_persistence epoch_index rt1 lfps1 rt2 lfps2 ti ri :
  Forall2 same_persistence
    (full_calls multitaper_parameters ripple_covariates epoch_index
       rt1 lfps1 ti ri)
    (full_calls multitaper_parameters ripple_covariates epoch_index
       rt2 lfps2 ti ri).
Proof. unfold full_calls. simpl. same_persistence_lists. Qed.

Lemma stopped_calls_same_persistence epoch_index rt1 lfps1 rt2 lfps2 ti :
  Forall2 same_persistence
    ([ DetectEpochRipples epoch_index animals sampling_frequency;
       GetEpochLfps epoch_index animals;
       SaveTetrodePairInfo epoch_index ti ]
     ++ triggered_calls epoch_index rt1 lfps1 ti multitaper_parameters
     ++ [DecodeRippleClusterless epoch_index animals rt1])
    ([ DetectEpochRipples epoch_index animals sampling_frequency;
       GetEpochLfps epoch_index animals;
       SaveTetrodePairInfo epoch_index ti ]
     ++ triggered_calls epoch_index rt2 lfps2 ti multitaper_parameters
     ++ [DecodeRippleClusterless epoch_index animals rt2]).
Proof. simpl. same_persistence_lists. Qed.

(** How far a run got, and which list its calls are the first of. *)
Lemma epoch_run_summary (h : Collaborators) (epoch_index : EpochIndex)
    (w : World) :
  let t := trace_of (epoch_run h epoch_index w) in
  ((length t <= 2)%nat /\ List.filter is_persistence (calls t) = [])
  \/ (exists rt lfps ti,
        (3 <= length t <= 28)%nat /\
        In (GetEpochLfps epoch_index animals, ReturnedLfps lfps ti) t /\
        calls t = firstn (length t)
          ([ DetectEpochRipples epoch_index animals sampling_frequency;
             GetEpochLfps epoch_index animals;
             SaveTetrodePairInfo epoch_index ti ]
           ++ triggered_calls epoch_index rt lfps ti multitaper_parameters
           ++ [DecodeRippleClusterless epoch_index animals rt]))
  \/ (exists rt lfps ti ri rest,
        (29 <= length t)%nat /\
        In (GetEpochLfps epoch_index animals, ReturnedLfps lfps ti) t /\
        In (DecodeRippleClusterless epoch_index animals rt,
            ReturnedDecoded ri rest) t /\
        calls t = firstn (length t)
          (full_calls multitaper_parameters ripple_covariates epoch_index
             rt lfps ti ri)).
Proof.
  pose proof (epoch_run_bounds h epoch_index w) as Hb. cbv zeta in Hb |- *.
  set (t := trace_of (epoch_run h epoch_index w)) in *.
  set (r := result_of (epoch_run h epoch_index w)) in *.
  clearbody t r.
  assert (length (calls t) = length t) as Hlen
    by (unfold calls; apply length_map).
  destruct Hb as [(err & -> & _) | [(rt & err & -> & _)
    | [(rt & lfps & ti & t' & err & Ht & _ & Hlo & Hhi)
      | (rt & lfps & ti & ri & rest & t1 & t2 & Ht & _ & Hlo & Hhi & _)]]].
  - left. split; [simpl; lia | reflexivity].
  - left. split; [simpl; lia | reflexivity].
  - right. left. exists rt, lfps, ti.
    apply prefix_length in Hlo as Hlo'. apply prefix_length in Hhi as Hhi'.
    rewrite Hlen in Hlo', Hhi'. simpl in Hlo', Hhi'.
    split; [split; [exact Hlo' | exact Hhi'] |].
    split; [rewrite Ht; right; left; reflexivity |].
    rewrite <- Hlen. apply prefix_firstn, Hhi.
  - right. right. exists rt, lfps, ti, ri, rest.
    apply prefix_length in Hlo as Hlo'. rewrite Hlen in Hlo'.
    simpl in Hlo'.
    split; [exact Hlo' |].
    split; [rewrite Ht; right; left; reflexivity |].
    split; [rewrite Ht; right; right; apply in_or_app; right; left;
            reflexivity |].
    rewrite <- Hlen. apply prefix_firstn, Hhi.
Qed.

(** C9: two epoch runs for the same epoch index in which the collaborators
    answer alike make the same calls with the same arguments in the same
    order, in particular the same persistence calls, and end alike.  The
    persistence calls need less than that: they are the same in two runs
    that got equally far and in which the loader returned the same tetrode
    information and the classifier the same first element, whatever the
    collaborators, the worlds, the ripple times, the LFPs and the results
    of the coherence calls were.  In a run that completes they are: the
    tetrode information the loader returned, then the catalog entries in
    the order of the catalog, then the first element of what the
    classifier returned; the covariates take no part in them. *)
Theorem same_answers_same_persistence_calls (h1 h2 : Collaborators)
    (epoch_index : EpochIndex) (w1 w2 : World) :
  (answers (trace_of (epoch_run h1 epoch_index w1))
     = answers (trace_of (epoch_run h2 epoch_index w2)) ->
   List.filter is_persistence (calls (trace_of (epoch_run h1 epoch_index w1)))
     = List.filter is_persistence
         (calls (trace_of (epoch_run h2 epoch_index w2))) /\
   calls (trace_of (epoch_run h1 epoch_index w1))
     = calls (trace_of (epoch_run h2 epoch_index w2)) /\
   result_of (epoch_run h1 epoch_index w1)
     = result_of (epoch_run h2 epoch_index w2)) /\
  (length (trace_of (epoch_run h1 epoch_index w1))
     = length (trace_of (epoch_run h2 epoch_index w2)) ->
   (forall lfps1 ti1 lfps2 ti2,
      In (GetEpochLfps epoch_index animals, ReturnedLfps lfps1 ti1)
         (trace_of (epoch_run h1 epoch_index w1)) ->
      In (GetEpochLfps epoch_index animals, ReturnedLfps lfps2 ti2)
         (trace_of (epoch_run h2 epoch_index w2)) ->
      ti1 = ti2) ->
   (forall rt1 ri1 rest1 rt2 ri2 rest2,
      In (DecodeRippleClusterless epoch_index animals rt1,
          ReturnedDecoded ri1 rest1)
         (trace_of (epoch_run h1 epoch_index w1)) ->
      In (DecodeRippleClusterless epoch_index animals rt2,
          ReturnedDecoded ri2 rest2)
         (trace_of (epoch_run h2 epoch_index w2)) ->
      ri1 = ri2) ->
   List.filter is_persistence (calls (trace_of (epoch_run h1 epoch_index w1)))
     = List.filter is_persistence
         (calls (trace_of (epoch_run h2 epoch_index w2)))) /\
  (completes h1 epoch_index w1 ->
   exists ripple_times lfps tetrode_info ripple_info rest,
     In (GetEpochLfps epoch_index animals, ReturnedLfps lfps tetrode_info)
        (trace_of (epoch_run h1 epoch_index w1)) /\
     In (DecodeRippleClusterless epoch_index animals ripple_times,
         ReturnedDecoded ripple_info rest)
        (trace_of (epoch_run h1 epoch_index w1)) /\
     List.filter is_persistence
       (calls (trace_of (epoch_run h1 epoch_index w1)))
     = SaveTetrodePairInfo epoch_index tetrode_info
       :: map (fun entry =>
                 SaveMultitaperParameters epoch_index (fst entry) (snd entry))
              multitaper_parameters
       ++ [SaveRippleInfo epoch_index ripple_info]).
Proof.
  split; [| split; [| apply persistence_calls_of_completed_run]].
  - intros Hanswers.
    destruct (run_determined_by_answers
                (estimate_ripple_coherence epoch_index) h1 h2 w1 w2 Hanswers)
      as [Ht Hr].
    unfold epoch_run. rewrite Ht, Hr. repeat split.
  - intros Hlen Hti Hri.
    pose proof (epoch_run_summary h1 epoch_index w1) as Hs1.
    pose proof (epoch_run_summary h2 epoch_index w2) as Hs2.
    cbv zeta in Hs1, Hs2.
    set (t1 := trace_of (epoch_run h1 epoch_index w1)) in *.
    set (t2 := trace_of (epoch_run h2 epoch_index w2)) in *.
    clearbody t1 t2.
    destruct Hs1 as [[Hl1 Hf1]
      | [(rt1 & lfps1 & ti1 & Hl1 & Hg1 & Hc1)
        | (rt1 & lfps1 & ti1 & ri1 & rest1 & Hl1 & Hg1 & Hd1 & Hc1)]];
    destruct Hs2 as [[Hl2 Hf2]
      | [(rt2 & lfps2 & ti2 & Hl2 & Hg2 & Hc2)
        | (rt2 & lfps2 & ti2 & ri2 & rest2 & Hl2 & Hg2 & Hd2 & Hc2)]];
    try lia.
    + rewrite Hf1, Hf2. reflexivity.
    + assert (ti1 = ti2) as -> by exact (Hti _ _ _ _ Hg1 Hg2).
      rewrite Hc1, Hc2, Hlen.
      apply filter_firstn_same_persistence, stopped_calls_same_persistence.
    + assert (ti1 = ti2) as -> by exact (Hti _ _ _ _ Hg1 Hg2).
      assert (ri1 = ri2) as -> by exact (Hri _ _ _ _ _ _ Hd1 Hd2).
      rewrite Hc1, Hc2, Hlen.
      apply filter_firstn_same_persistence, full_calls_same_persistence.
Qed.

End Further.

(* ===================================================================== *)
(** ** The script *)
(* ===================================================================== *)

Section ScriptFacts.
Context `{PipelineTypes} `{ShellTypes}.
Variable hs : ShellCollaborators.

Lemma run_sh_bind {A B : Type} (p : sh A) (f : A -> sh B) (w : World) :
  run_sh hs (bind_sh p f) w =
  match run_sh hs p w with
  | (w1, t1, inl e) => (w1, t1, inl e)
  | (w1, t1, inr a) =>
      let '(w2, t2, r) := run_sh hs (f a) w1 in (w2, t1 ++ t2, r)
  end.
Proof.
  revert w. induction p as [a | c k IH]; intros w; simpl.
  - destruct (run_sh hs (f a) w) as [[w2 t2] r]. reflexivity.
  - destruct (hs c w) as [w1 [e | v]]; [reflexivity |].
    rewrite IH. destruct (run_sh hs (k v) w1) as [[w2 t2] [e | a]];
      [reflexivity |].
    destruct (run_sh hs (f a) w2) as [[w3 t3] r]. reflexivity.
Qed.

Lemma embed_returned (c : call) (v : response c) :
  embed (c, answer_of c v) = (Pipeline c, ShPipeline (answer_of c v)).
Proof. destruct c; reflexivity. Qed.

(** Running a program of the pipeline inside the script is running it
    against the script's collaborators for the pipeline. *)
Lemma run_sh_lift {A : Type} (p : prog A) (w : World) :
  run_sh hs (lift p) w =
  let '(w', t, r) := run (pipeline_of hs) p w in (w', map embed t, r).
Proof.
  revert w. induction p as [a | c k IH]; intros w; simpl; [reflexivity |].
  unfold pipeline_of at 1. destruct (hs (Pipeline c) w) as [w1 [e | v]].
  - reflexivity.
  - rewrite IH. destruct (run (pipeline_of hs) (k v) w1) as [[w2 t] r].
    simpl. rewrite embed_returned. reflexivity.
Qed.

Lemma run_sh_Act_cases {A : Type} (c : shell_call)
    (k : shell_response c -> sh A) (w w' : World) (t : shell_trace)
    (r : Error + A) :
  run_sh hs (Act c k) w = (w', t, r) ->
  (exists err, t = [(c, ShRaised err)] /\ r = inl err)
  \/ (exists w1 v t1,
        run_sh hs (k v) w1 = (w', t1, r)
        /\ t = (c, shell_answer_of c v) :: t1).
Proof.
  simpl. destruct (hs c w) as [w1 [e | v]].
  - intros Heq. injection Heq as <- <- <-. left. eauto.
  - destruct (run_sh hs (k v) w1) as [[w2 t1] r1] eqn:Hk.
    intros Heq. injection Heq as <- <- <-. right. eauto.
Qed.

(** One call of the setup of [main]: it raises, and the run stops before
    the pipeline, or it returns. *)
Tactic Notation "sh_step" hyp(Hrun) ident(w) ident(v) :=
  let err := fresh "err" in
  let t := fresh "t" in
  apply run_sh_Act_cases in Hrun
    as [(err & -> & ->) | (w & v & t & Hrun & ->)];
  [apply SetupFailed; reflexivity |].

(** Every run of [main] has one of the three shapes. *)
Lemma main_run_shape (w w' : World) (t : shell_trace) (r : Error + unit) :
  run_sh hs main w = (w', t, r) -> main_shape hs t r.
Proof.
  intros Hrun.
  cbn beta iota zeta delta
    [main get_command_line_arguments get_logger bind_sh for_sh
     new_argument_parser add_argument parse_args new_formatter
     new_stream_handler set_formatter getLogger add_handler set_level
     signal logger_info subprocess_run] in Hrun.
  sh_step Hrun w1 parser. sh_step Hrun w2 u2. sh_step Hrun w3 u3.
  sh_step Hrun w4 u4. sh_step Hrun w5 u5. sh_step Hrun w6 args.
  sh_step Hrun w7 formatter. sh_step Hrun w8 handler. sh_step Hrun w9 u9.
  sh_step Hrun w10 logger. sh_step Hrun w11 u11. sh_step Hrun w12 u12.
  sh_step Hrun w13 u13. sh_step Hrun w14 u14. sh_step Hrun w15 u15.
  sh_step Hrun w16 completed. sh_step Hrun w17 u17.
  rewrite run_sh_bind, run_sh_lift in Hrun.
  destruct (run (pipeline_of hs)
              (estimate_ripple_coherence
                 (Args.Animal args, Args.Day args, Args.Epoch args)) w17)
    as [[w18 tp] [err | []]] eqn:Hpipe; cbv beta iota zeta in Hrun.
  - injection Hrun as Hw Ht Hr. subst w' t0 r.
    pose proof (PipelineFailed hs parser args formatter handler logger
                  completed w17 err) as Hshape.
    unfold epoch_run in Hshape. rewrite Hpipe in Hshape.
    exact (Hshape eq_refl).
  - destruct (run_sh hs (logger_info logger "Finished Processing") w18)
      as [[w19 t2] r2] eqn:Hlog.
    injection Hrun as Hw Ht Hr. subst w' t0 r. unfold logger_info in Hlog.
    pose proof (fun a => PipelineDone hs parser args formatter handler logger
                  completed w17 a r2) as Hshape.
    unfold epoch_run in Hshape. rewrite Hpipe in Hshape.
    apply run_sh_Act_cases in Hlog
      as [(err & -> & ->) | (w20 & v & t3 & Hdone & ->)].
    + apply (Hshape (ShRaised err) eq_refl). right. eauto.
    + simpl in Hdone. injection Hdone as _ <- <-. destruct v.
      apply (Hshape ShNone eq_refl). left. split; reflexivity.
Qed.

Lemma shell_calls_embed (t : trace) :
  shell_calls (map embed t) = map Pipeline (calls t).
Proof.
  unfold shell_calls, calls. rewrite !map_map. reflexivity.
Qed.

Lemma pipeline_calls_map (l : list call) :
  pipeline_calls (map Pipeline l) = l.
Proof.
  induction l as [| c l IH]; simpl; [reflexivity | rewrite IH; reflexivity].
Qed.

Lemma count_map_Pipeline (P : shell_call -> bool) (l : list call) :
  count P (map Pipeline l) = count (fun c => P (Pipeline c)) l.
Proof.
  induction l as [| c l IH]; simpl; [reflexivity | rewrite IH; reflexivity].
Qed.

Lemma count_never {X : Type} (l : list X) : count (fun _ => false) l = 0%nat.
Proof. induction l as [| x l IH]; simpl; [reflexivity | exact IH]. Qed.

Lemma epoch_run_starts_with_detector (h : Collaborators)
    (epoch_index : EpochIndex) (w : World) :
  exists a rest,
    trace_of (epoch_run h epoch_index w)
    = (DetectEpochRipples epoch_index animals sampling_frequency, a) :: rest.
Proof.
  destruct (epoch_run_shape h epoch_index w); eexists _, _; reflexivity.
Qed.

(** X6: what [main] has done by the time the pipeline is entered.  A run
    of [main] that makes any pipeline call starts with the seventeen setup
    calls, all of which returned: the four arguments are declared and the
    command line parsed, the root logger gets a stream handler on stdout
    and the parsed log level, the handler is installed for SIGUSR1 and
    then SIGUSR2, the epoch line is logged, git is asked for the revision
    and whatever it printed is logged (its return code is not looked at).
    Then comes one epoch run for (Animal, Day, Epoch) of the command line,
    against the same collaborators, and after it at most the final log
    call. *)
Theorem main_sets_up_then_runs_pipeline (w w' : World) (t : shell_trace)
    (r : Error + unit) (c : call) :
  run_sh hs main w = (w', t, r) ->
  In (Pipeline c) (shell_calls t) ->
  exists parser args formatter handler logger completed w0 tail,
    t = preamble parser args formatter handler logger completed
        ++ map embed
             (trace_of (epoch_run (pipeline_of hs)
                          (Args.Animal args, Args.Day args, Args.Epoch args)
                          w0))
        ++ tail /\
    (tail = [] \/
     exists a, tail = [(LoggerInfo logger "Finished Processing", a)]).
Proof.
  intros Hrun Hin. apply main_run_shape in Hrun.
  destruct Hrun as [t err Hnone _
    | parser args formatter handler logger completed w0 err _
    | parser args formatter handler logger completed w0 a r _ _].
  - apply (count_zero_In is_pipeline _ _ Hnone) in Hin. discriminate Hin.
  - exists parser, args, formatter, handler, logger, completed, w0, [].
    rewrite app_nil_r. split; [reflexivity | left; reflexivity].
  - exists parser, args, formatter, handler, logger, completed, w0,
      [(LoggerInfo logger "Finished Processing", a)].
    split; [reflexivity | right; eauto].
Qed.


Lemma epoch_run_length (h : Collaborators) (epoch_index : EpochIndex)
    (w : World) :
  (length (trace_of (epoch_run h epoch_index w)) <= 77)%nat /\
  (result_of (epoch_run h epoch_index w) = inr tt ->
   length (trace_of (epoch_run h epoch_index w)) = 77%nat).
Proof.
  split.
  - pose proof (epoch_run_bounds h epoch_index w) as Hb. cbv zeta in Hb.
    set (t := trace_of (epoch_run h epoch_index w)) in *.
    set (r := result_of (epoch_run h epoch_index w)) in *.
    clearbody t r.
    assert (length (calls t) = length t) as Hlen
      by (unfold calls; apply length_map).
    destruct Hb as [(err & -> & _) | [(rt & err & -> & _)
      | [(rt & lfps & ti & t' & err & _ & _ & _ & Hhi)
        | (rt & lfps & ti & ri & rest & t1 & t2 & _ & _ & _ & Hhi & _)]]].
    + simpl. lia.
    + simpl. lia.
    + apply prefix_length in Hhi. rewrite Hlen in Hhi. simpl in Hhi. lia.
    + apply prefix_length in Hhi. rewrite Hlen in Hhi.
      change (length (full_calls multitaper_parameters ripple_covariates
                        epoch_index rt lfps ti ri)) with 77%nat in Hhi.
      exact Hhi.
  - intros Hok.
    destruct (completed_run h epoch_index w Hok)
      as (rt & lfps & ti & ri & rest & Hcalls & _).
    apply (f_equal (@length _)) in Hcalls. unfold calls in Hcalls.
    rewrite length_map in Hcalls. rewrite Hcalls. reflexivity.
Qed.

(** A run that returned made no call that raised. *)
Lemma returned_run_raises_nothing {A : Type} (h : Collaborators)
    (p : prog A) (w : World) (a : A) (c : call) (err : Error) :
  result_of (run h p w) = inr a -> ~ In (c, Raised err) (trace_of (run h p w)).
Proof.
  intros Hok Hin. destruct (raised_is_last h p w c err Hin) as [Hfail _].
  congruence.
Qed.

Lemma embed_raised (tp : trace) (c : call) (err : Error) :
  In (Pipeline c, ShRaised err) (map embed tp) -> In (c, Raised err) tp.
Proof.
  intros Hin. apply in_map_iff in Hin as ([c0 a0] & Heq & Hin).
  unfold embed in Heq. simpl in Heq. injection Heq as -> Ha0.
  assert (a0 = Raised err) as ->
    by (destruct a0; try discriminate Ha0; congruence).
  exact Hin.
Qed.

Lemma finished_not_before_pipeline_end parser args formatter handler logger
    completed (tp : trace) :
  count is_finished
    (shell_calls
       (preamble parser args formatter handler logger completed
        ++ map embed tp)) = 0%nat.
Proof.
  unfold shell_calls. rewrite map_app, count_app.
  fold (shell_calls (map embed tp)).
  rewrite shell_calls_embed, count_map_Pipeline. simpl.
  apply count_never.
Qed.

Lemma preamble_makes_no_pipeline_call parser args formatter handler logger
    completed (c : call) (a : shell_answer) :
  ~ In (Pipeline c, a)
       (preamble parser args formatter handler logger completed).
Proof.
  intros Hin.
  repeat (destruct Hin as [Hin | Hin]; [discriminate Hin |]).
  contradiction.
Qed.

(** Two ways of cutting a trace after the setup cut it at the same place,
    and name the same logger. *)
Lemma preamble_inj parser args formatter handler logger completed
    parser' args' formatter' handler' logger' completed'
    (l l' : shell_trace) :
  preamble parser args formatter handler logger completed ++ l
  = preamble parser' args' formatter' handler' logger' completed' ++ l' ->
  logger = logger' /\ l = l'.
Proof.
  intros Heq. apply app_inj_1 in Heq as [Hpre Hl]; [| reflexivity].
  split; [| exact Hl].
  apply (f_equal (fun t => nth_error t 9)) in Hpre. simpl in Hpre.
  congruence.
Qed.

(** X8: 'Finished Processing' is logged exactly when the pipeline has
    returned.  In any run of [main] the log call is made if and only if
    the pipeline was entered and none of its calls raised; and however the
    trace is cut into the setup, an epoch run for the epoch index of the
    command line and a tail, that epoch run returned if and only if the
    tail is the log call.  The call is made at most once and is then the
    last call, after an epoch run that made all its 64 coherence calls and
    10 persistence calls; [main] returns only with that call as its last,
    and when the pipeline or the setup fails the line is not logged. *)
Theorem finished_is_logged_iff_pipeline_returns (w w' : World)
    (t : shell_trace) (r : Error + unit) :
  run_sh hs main w = (w', t, r) ->
  ((exists logger a, In (LoggerInfo logger "Finished Processing", a) t) <->
   ((exists c a, In (Pipeline c, a) t) /\
    forall c err, ~ In (Pipeline c, ShRaised err) t)) /\
  (forall parser args formatter handler logger completed w0 tail,
     t = preamble parser args formatter handler logger completed
         ++ map embed
              (trace_of (epoch_run (pipeline_of hs)
                           (Args.Animal args, Args.Day args, Args.Epoch args)
                           w0))
         ++ tail ->
     (result_of (epoch_run (pipeline_of hs)
                   (Args.Animal args, Args.Day args, Args.Epoch args) w0)
        = inr tt <->
      exists a, tail = [(LoggerInfo logger "Finished Processing", a)])) /\
  (count is_finished (shell_calls t) <= 1)%nat /\
  (forall err c,
     In (Pipeline c, ShRaised err) t ->
     count is_finished (shell_calls t) = 0%nat) /\
  (forall logger a,
     In (LoggerInfo logger "Finished Processing", a) t ->
     (exists t0, t = t0 ++ [(LoggerInfo logger "Finished Processing", a)]) /\
     count is_coherence (pipeline_calls (shell_calls t)) = 64%nat /\
     count is_persistence (pipeline_calls (shell_calls t)) = 10%nat) /\
  (r = inr tt ->
   exists t0 logger,
     t = t0 ++ [(LoggerInfo logger "Finished Processing", ShNone)]).
Proof.
  intros Hrun. apply main_run_shape in Hrun.
  pose proof finished_not_before_pipeline_end as Hnone.
  destruct Hrun as [t err Hpipe Hfin
    | parser args formatter handler logger completed w0 err Hres
    | parser args formatter handler logger completed w0 a r Hres Ha].
  - assert (forall lg a, ~ In (LoggerInfo lg "Finished Processing", a) t)
      as Hnolog.
    { intros lg a Hin. apply (in_map fst) in Hin.
      apply (count_zero_In is_finished _ _ Hfin) in Hin. discriminate Hin. }
    assert (forall c a, ~ In (Pipeline c, a) t) as Hnopipe.
    { intros c a Hin. apply (in_map fst) in Hin.
      apply (count_zero_In is_pipeline _ _ Hpipe) in Hin. discriminate Hin. }
    split; [| split; [| split; [lia | split; [intros; exact Hfin |
                                        split; [| discriminate]]]]].
    + split.
      * intros (lg & a & Hin). destruct (Hnolog _ _ Hin).
      * intros [(c & a & Hin) _]. destruct (Hnopipe _ _ Hin).
    + intros parser args formatter handler logger completed w0 tail Ht.
      exfalso.
      destruct (epoch_run_starts_with_detector (pipeline_of hs)
                  (Args.Animal args, Args.Day args, Args.Epoch args) w0)
        as (a0 & rest & Htp).
      rewrite Htp in Ht.
      apply (Hnopipe (DetectEpochRipples
                        (Args.Animal args, Args.Day args, Args.Epoch args)
                        animals sampling_frequency)
                     (snd (embed (DetectEpochRipples
                        (Args.Animal args, Args.Day args, Args.Epoch args)
                        animals sampling_frequency, a0)))).
      rewrite Ht. apply in_or_app; right. left. reflexivity.
    + intros lg a Hin. destruct (Hnolog _ _ Hin).
  - set (tp := trace_of (epoch_run (pipeline_of hs)
                 (Args.Animal args, Args.Day args, Args.Epoch args) w0)) in *.
    assert (forall lg a,
              ~ In (LoggerInfo lg "Finished Processing", a)
                   (preamble parser args formatter handler logger completed
                    ++ map embed tp)) as Hnolog.
    { intros lg a Hin. apply (in_map fst) in Hin.
      apply (count_zero_In is_finished _ _ (Hnone _ _ _ _ _ _ _)) in Hin.
      discriminate Hin. }
    assert (exists t0 c, tp = t0 ++ [(c, Raised err)]) as (t0 & c & Hlast).
    { pose proof (run_failure (pipeline_of hs)
                    (estimate_ripple_coherence
                       (Args.Animal args, Args.Day args, Args.Epoch args))
                    w0) as Hf.
      unfold epoch_run in Hres. rewrite Hres in Hf.
      destruct Hf as (t0 & c & Ht & _). exists t0, c. exact Ht. }
    assert (In (Pipeline c, ShRaised err) (map embed tp)) as Hraised.
    { rewrite Hlast, map_app. apply in_or_app; right. left. reflexivity. }
    split; [| split; [| split; [rewrite Hnone; lia |
                          split; [intros; apply Hnone |
                                  split; [| discriminate]]]]].
    + split.
      * intros (lg & a & Hin). destruct (Hnolog _ _ Hin).
      * intros [_ Hno]. destruct (Hno c err).
        apply in_or_app; right. exact Hraised.
    + intros parser' args' formatter' handler' logger' completed' w0' tail Ht.
      set (tp' := trace_of (epoch_run (pipeline_of hs)
                    (Args.Animal args', Args.Day args', Args.Epoch args')
                    w0')) in *.
      rewrite <- (app_nil_r (map embed tp)) in Ht at 1.
      split.
      * intros Hok. exfalso.
        rewrite app_nil_r in Ht.
        apply preamble_inj in Ht as [_ Ht].
        pose proof (epoch_run_length (pipeline_of hs)
                      (Args.Animal args, Args.Day args, Args.Epoch args) w0)
          as [Hle _].
        pose proof (epoch_run_length (pipeline_of hs)
                      (Args.Animal args', Args.Day args', Args.Epoch args')
                      w0') as [_ Hfull].
        specialize (Hfull Hok). fold tp in Hle. fold tp' in Hfull.
        assert (tail = []) as ->.
        { apply (f_equal (@length _)) in Ht.
          rewrite length_app, !length_map in Ht.
          destruct tail; [reflexivity | simpl in Ht; lia]. }
        rewrite app_nil_r in Ht. rewrite Ht in Hraised.
        apply embed_raised in Hraised.
        exact (returned_run_raises_nothing _ _ _ _ _ _ Hok Hraised).
      * intros (a & ->). exfalso. rewrite app_nil_r in Ht.
        apply (Hnolog logger' a). rewrite Ht.
        apply in_or_app; right. apply in_or_app; right. left. reflexivity.
    + intros lg a Hin. destruct (Hnolog _ _ Hin).
  - set (tp := trace_of (epoch_run (pipeline_of hs)
                 (Args.Animal args, Args.Day args, Args.Epoch args) w0)) in *.
    assert (count is_finished
              (shell_calls
                 (preamble parser args formatter handler logger completed
                  ++ map embed tp
                  ++ [(LoggerInfo logger "Finished Processing", a)]))
            = 1%nat) as Hone.
    { rewrite app_assoc. unfold shell_calls at 1. rewrite map_app, count_app.
      fold (shell_calls (preamble parser args formatter handler logger
                           completed ++ map embed tp)).
      rewrite Hnone. reflexivity. }
    assert (forall c err, ~ In (c, Raised err) tp) as Hreturned.
    { intros c err. exact (returned_run_raises_nothing _ _ _ _ _ _ Hres). }
    assert (forall c err,
              ~ In (Pipeline c, ShRaised err)
                   (preamble parser args formatter handler logger completed
                    ++ map embed tp
                    ++ [(LoggerInfo logger "Finished Processing", a)]))
      as Hnoraise.
    { intros c err Hin. apply in_app_or in Hin as [Hin | Hin].
      - exact (preamble_makes_no_pipeline_call _ _ _ _ _ _ _ _ Hin).
      - apply in_app_or in Hin as [Hin | [Hin | []]].
        + apply embed_raised in Hin. exact (Hreturned _ _ Hin).
        + discriminate Hin. }
    split; [| split; [| split; [rewrite Hone; lia | split; [| split]]]].
    + split; intros _.
      * split; [| exact Hnoraise].
        destruct (epoch_run_starts_with_detector (pipeline_of hs)
                    (Args.Animal args, Args.Day args, Args.Epoch args) w0)
          as (a0 & rest & Htp).
        fold tp in Htp. rewrite Htp. eexists _, _.
        apply in_or_app; right. left. reflexivity.
      * exists logger, a.
        apply in_or_app; right. apply in_or_app; right. left. reflexivity.
    + intros parser' args' formatter' handler' logger' completed' w0' tail Ht.
      set (tp' := trace_of (epoch_run (pipeline_of hs)
                    (Args.Animal args', Args.Day args', Args.Epoch args')
                    w0')) in *.
      apply preamble_inj in Ht as [<- Ht].
      split.
      * intros Hok.
        pose proof (epoch_run_length (pipeline_of hs)
                      (Args.Animal args, Args.Day args, Args.Epoch args) w0)
          as [_ Hfull].
        pose proof (epoch_run_length (pipeline_of hs)
                      (Args.Animal args', Args.Day args', Args.Epoch args')
                      w0') as [_ Hfull'].
        specialize (Hfull Hres). specialize (Hfull' Hok).
        fold tp in Hfull. fold tp' in Hfull'.
        apply app_inj_1 in Ht as [_ <-];
          [| rewrite !length_map; congruence].
        exists a. reflexivity.
      * intros (a' & ->).
        apply app_inj_tail in Ht as [Ht _].
        destruct (result_of (epoch_run (pipeline_of hs)
                    (Args.Animal args', Args.Day args', Args.Epoch args')
                    w0')) as [err' | []] eqn:Hres'; [exfalso | reflexivity].
        pose proof (run_failure (pipeline_of hs)
                      (estimate_ripple_coherence
                         (Args.Animal args', Args.Day args', Args.Epoch args'))
                      w0') as Hf.
        unfold epoch_run in Hres'. rewrite Hres' in Hf.
        destruct Hf as (t0 & c & Hlast & _).
        apply (Hreturned c err'). apply embed_raised. rewrite Ht.
        unfold tp', epoch_run. rewrite Hlast, map_app.
        apply in_or_app; right. left. reflexivity.
    + intros err c Hin. destruct (Hnoraise _ _ Hin).
    + intros lg a' Hin.
      assert ((LoggerInfo lg "Finished Processing", a')
              = (LoggerInfo logger "Finished Processing", a)) as Heq.
      { rewrite app_assoc in Hin. apply in_app_or in Hin as [Hin | Hin].
        - apply (in_map fst) in Hin.
          apply (count_zero_In is_finished _ _ (Hnone _ _ _ _ _ _ _)) in Hin.
          discriminate Hin.
        - destruct Hin as [Hin | []]. symmetry. exact Hin. }
      injection Heq as -> ->. split.
      * eexists. rewrite app_assoc. reflexivity.
      * destruct (completed_run (pipeline_of hs) _ w0 Hres)
          as (rt & lfps & ti & ri & rest & Hcalls & _).
        fold tp in Hcalls.
        assert (pipeline_calls
                  (shell_calls
                     (preamble parser args formatter handler logger completed
                      ++ map embed tp
                      ++ [(LoggerInfo logger "Finished Processing", a)]))
                = calls tp) as ->.
        { unfold shell_calls, pipeline_calls.
          rewrite !map_app, !flat_map_app.
          fold (shell_calls (map embed tp)).
          rewrite shell_calls_embed. simpl. rewrite app_nil_r.
          apply pipeline_calls_map. }
        rewrite Hcalls. split; vm_compute; reflexivity.
    + intros ->. destruct Ha as [[-> _] | (err & _ & Herr)];
        [| discriminate Herr].
      eexists _, logger. rewrite app_assoc. reflexivity.
Qed.

End ScriptFacts.

(** The claims, checked on runs against the stub collaborators. *)
#[local] Existing Instance stub_types.

Lemma detector_failure_aborts_run_witness :
  result_of (epoch_run detector_down HPa_3_2 0%nat)
    = inl "collaborator failed"%string /\
  trace_of (epoch_run detector_down HPa_3_2 0%nat) =
    [(DetectEpochRipples HPa_3_2 animals sampling_frequency,
      Raised "collaborator failed"%string)] /\
  count (fun c => is_loader c || is_classifier c || is_coherence c
                  || is_persistence c)
        (calls (trace_of (epoch_run detector_down HPa_3_2 0%nat))) = 0%nat.
Proof.
  apply (detector_failure_aborts_run detector_down HPa_3_2 0%nat 1%nat).
  reflexivity.
Defined.

Lemma coherence_engine_invoked_64_times_witness :
  completes working HPa_3_2 0%nat /\
  count is_coherence (calls (trace_of (epoch_run working HPa_3_2 0%nat)))
    = 64%nat.
Proof.
  assert (completes working HPa_3_2 0%nat) as Hok by (vm_compute; reflexivity).
  split; [exact Hok |].
  pose proof (coherence_engine_invoked_64_times working HPa_3_2 0%nat Hok)
    as [Hcount _].
  exact Hcount.
Defined.

Lemma parameters_saved_once_per_entry_witness :
  completes working HPa_3_2 0%nat /\
  In "ripple_frequencies"%string (map fst multitaper_parameters) /\
  count is_save_multitaper_parameters
    (calls (trace_of (epoch_run working HPa_3_2 0%nat))) = 8%nat /\
  (count (fun c => is_save_multitaper_parameters c
                   && names "ripple_frequencies" c)
     (calls (trace_of (epoch_run ripple_band_down HPa_3_2 0%nat))) <= 1)%nat.
Proof.
  assert (completes working HPa_3_2 0%nat) as Hok by (vm_compute; reflexivity).
  assert (In "ripple_frequencies"%string (map fst multitaper_parameters))
    as Hname by (do 7 right; left; reflexivity).
  split; [exact Hok |]. split; [exact Hname |].
  pose proof (parameters_saved_once_per_entry working HPa_3_2 0%nat)
    as (_ & _ & Hdone).
  pose proof (parameters_saved_once_per_entry ripple_band_down HPa_3_2 0%nat)
    as (_ & Hall & _).
  destruct (Hdone Hok) as [Hcount _]. destruct (Hall _ Hname) as [Hle _].
  split; [exact Hcount | exact Hle].
Defined.

(** C7 as stated fails: a run that the detector aborts saves no parameter
    set, and a run aborted by the canonical coherence call for the ripple
    band has saved seven, none of them for the ripple band. *)
Lemma parameters_not_saved_when_run_aborts :
  count is_save_multitaper_parameters
    (calls (trace_of (epoch_run detector_down HPa_3_2 0%nat))) = 0%nat /\
  count is_save_multitaper_parameters
    (calls (trace_of (epoch_run ripple_band_down HPa_3_2 0%nat))) = 7%nat /\
  count (fun c => is_save_multitaper_parameters c
                  && names "ripple_frequencies" c)
    (calls (trace_of (epoch_run ripple_band_down HPa_3_2 0%nat))) = 0%nat /\
  count is_save_multitaper_parameters
    (calls (trace_of (epoch_run ripple_band_down HPa_3_2 0%nat))) <> 8%nat.
Proof. vm_compute. repeat split. discriminate. Qed.

Lemma stratified_phase_is_covariate_major_witness :
  completes working HPa_3_2 0%nat /\
  pairwise_strata (calls (trace_of (epoch_run working HPa_3_2 0%nat)))
    = list_prod ripple_covariates (map fst multitaper_parameters).
Proof.
  assert (completes working HPa_3_2 0%nat) as Hok by (vm_compute; reflexivity).
  split; [exact Hok |].
  pose proof (stratified_phase_is_covariate_major working HPa_3_2 0%nat)
    as (_ & _ & Hdone).
  destruct (Hdone Hok) as (_ & Hpairwise & _). exact Hpairwise.
Defined.


(** Evaluating a run against the stubs, with the tables kept folded. *)
Ltac stub_run_in H :=
  cbv -[animals ripple_frequency gamma_frequency_highTimeRes
        gamma_frequency_medFreqRes1 gamma_frequency_medFreqRes2
        gamma_frequency_highFreqRes low_frequency_highTimeRes
        low_frequency_medFreqRes low_frequency_highFreqRes stub_types] in H.

(** The second run starts in the world the first one left; the third is
    against collaborators that return other ripple times and LFPs. *)
Lemma same_answers_same_persistence_calls_witness :
  answers (trace_of (epoch_run working HPa_3_2 0%nat))
    = answers (trace_of (epoch_run working HPa_3_2
                           (world_of (epoch_run working HPa_3_2 0%nat)))) /\
  List.filter is_persistence
    (calls (trace_of (epoch_run working HPa_3_2 0%nat)))
  = List.filter is_persistence
      (calls (trace_of (epoch_run working HPa_3_2
                          (world_of (epoch_run working HPa_3_2 0%nat))))) /\
  answers (trace_of (epoch_run working HPa_3_2 0%nat))
    <> answers (trace_of (epoch_run working_other HPa_3_2 0%nat)) /\
  calls (trace_of (epoch_run working HPa_3_2 0%nat))
    <> calls (trace_of (epoch_run working_other HPa_3_2 0%nat)) /\
  length (trace_of (epoch_run working HPa_3_2 0%nat))
    = length (trace_of (epoch_run working_other HPa_3_2 0%nat)) /\
  List.filter is_persistence
    (calls (trace_of (epoch_run working HPa_3_2 0%nat)))
  = List.filter is_persistence
      (calls (trace_of (epoch_run working_other HPa_3_2 0%nat))) /\
  completes working_other HPa_3_2 0%nat /\
  exists tetrode_info ripple_info,
    List.filter is_persistence
      (calls (trace_of (epoch_run working_other HPa_3_2 0%nat)))
    = SaveTetrodePairInfo HPa_3_2 tetrode_info
      :: map (fun entry =>
                SaveMultitaperParameters HPa_3_2 (fst entry) (snd entry))
             multitaper_parameters
      ++ [SaveRippleInfo HPa_3_2 ripple_info].
Proof.
  assert (completes working_other HPa_3_2 0%nat) as Hok
    by (vm_compute; reflexivity).
  assert (answers (trace_of (epoch_run working HPa_3_2 0%nat))
          = answers (trace_of (epoch_run working HPa_3_2
                       (world_of (epoch_run working HPa_3_2 0%nat)))))
    as Hanswers by (vm_compute; reflexivity).
  assert (length (trace_of (epoch_run working HPa_3_2 0%nat))
          = length (trace_of (epoch_run working_other HPa_3_2 0%nat)))
    as Hlen by (vm_compute; reflexivity).
  assert (forall lfps1 ti1 lfps2 ti2,
            In (GetEpochLfps HPa_3_2 animals, ReturnedLfps lfps1 ti1)
               (trace_of (epoch_run working HPa_3_2 0%nat)) ->
            In (GetEpochLfps HPa_3_2 animals, ReturnedLfps lfps2 ti2)
               (trace_of (epoch_run working_other HPa_3_2 0%nat)) ->
            ti1 = ti2) as Hti.
  { intros lfps1 ti1 lfps2 ti2 H1 H2.
    stub_run_in H1.
    repeat (destruct H1 as [H1 | H1]; [try discriminate H1 |]);
      [| contradiction].
    stub_run_in H2.
    repeat (destruct H2 as [H2 | H2]; [try discriminate H2 |]);
      [| contradiction].
    congruence. }
  assert (forall rt1 ri1 rest1 rt2 ri2 rest2,
            In (DecodeRippleClusterless HPa_3_2 animals rt1,
                ReturnedDecoded ri1 rest1)
               (trace_of (epoch_run working HPa_3_2 0%nat)) ->
            In (DecodeRippleClusterless HPa_3_2 animals rt2,
                ReturnedDecoded ri2 rest2)
               (trace_of (epoch_run working_other HPa_3_2 0%nat)) ->
            ri1 = ri2) as Hri.
  { intros rt1 ri1 rest1 rt2 ri2 rest2 H1 H2.
    stub_run_in H1.
    repeat (destruct H1 as [H1 | H1]; [try discriminate H1 |]);
      [| contradiction].
    stub_run_in H2.
    repeat (destruct H2 as [H2 | H2]; [try discriminate H2 |]);
      [| contradiction].
    congruence. }
  split; [exact Hanswers |].
  pose proof (same_answers_same_persistence_calls working working HPa_3_2
                0%nat (world_of (epoch_run working HPa_3_2 0%nat)))
    as [Hsame _].
  destruct (Hsame Hanswers) as [Hpersist _].
  split; [exact Hpersist |].
  split; [vm_compute; discriminate |].
  split; [vm_compute; discriminate |].
  split; [exact Hlen |].
  pose proof (same_answers_same_persistence_calls working working_other
                HPa_3_2 0%nat 0%nat) as (_ & Hless & _).
  split; [exact (Hless Hlen Hti Hri) |].
  split; [exact Hok |].
  pose proof (same_answers_same_persistence_calls working_other working
                HPa_3_2 0%nat 0%nat) as (_ & _ & Hdone).
  destruct (Hdone Hok) as (rt & lfps & ti & ri & rest & _ & _ & Hlist).
  exists ti, ri. exact Hlist.
Defined.

Lemma tetrode_info_saved_once_before_coherence_witness :
  In (GetEpochLfps HPa_3_2 animals,
      ReturnedLfps 10%nat ["CA1"; "CA1"; "PFC"]%string)
     (trace_of (epoch_run working HPa_3_2 0%nat)) /\
  completes working HPa_3_2 0%nat /\
  count is_save_tetrode_pair_info
    (calls (trace_of (epoch_run working HPa_3_2 0%nat))) = 1%nat /\
  In (SaveTetrodePairInfo HPa_3_2 ["CA1"; "CA1"; "PFC"]%string)
     (calls (trace_of (epoch_run working HPa_3_2 0%nat))).
Proof.
  assert (In (GetEpochLfps HPa_3_2 animals,
              ReturnedLfps 10%nat ["CA1"; "CA1"; "PFC"]%string)
             (trace_of (epoch_run working HPa_3_2 0%nat))) as Hloaded
    by (vm_compute; right; left; reflexivity).
  assert (completes working HPa_3_2 0%nat) as Hok by (vm_compute; reflexivity).
  split; [exact Hloaded |]. split; [exact Hok |].
  pose proof (tetrode_info_saved_once_before_coherence working HPa_3_2 0%nat)
    as (_ & _ & Hloader & _).
  exact (Hloader _ _ Hloaded).
Defined.

(** C3 as stated fails: when the detector raises, the run ends before
    [save_tetrode_pair_info] is reached. *)
Lemma tetrode_info_not_saved_when_detector_fails :
  trace_of (epoch_run detector_down HPa_3_2 0%nat)
    = [(DetectEpochRipples HPa_3_2 animals sampling_frequency,
        Raised "collaborator failed"%string)] /\
  count is_save_tetrode_pair_info
    (calls (trace_of (epoch_run detector_down HPa_3_2 0%nat))) = 0%nat /\
  count is_save_tetrode_pair_info
    (calls (trace_of (epoch_run detector_down HPa_3_2 0%nat))) <> 1%nat.
Proof. vm_compute. repeat split. discriminate. Qed.

Lemma ripple_info_classified_then_saved_witness :
  completes working HPa_3_2 0%nat /\
  count is_classifier
    (calls (trace_of (epoch_run working HPa_3_2 0%nat))) = 1%nat /\
  count is_save_ripple_info
    (calls (trace_of (epoch_run working HPa_3_2 0%nat))) = 1%nat.
Proof.
  assert (completes working HPa_3_2 0%nat) as Hok by (vm_compute; reflexivity).
  split; [exact Hok |].
  pose proof (ripple_info_classified_then_saved working HPa_3_2 0%nat)
    as (_ & _ & _ & _ & _ & Hdone).
  exact (Hdone Hok).
Defined.

(** C4 as stated fails: when the loader raises, the run ends before the
    classifier and [save_ripple_info] are reached. *)
Lemma classifier_not_invoked_when_loader_fails :
  trace_of (epoch_run loader_down HPa_3_2 0%nat)
    = [(DetectEpochRipples HPa_3_2 animals sampling_frequency,
        ReturnedRippleTimes
          [(100, 180); (900, 1010); (2500, 2590); (4000, 4100); (7300, 7380)]);
       (GetEpochLfps HPa_3_2 animals,
        Raised "collaborator failed"%string)] /\
  count is_classifier
    (calls (trace_of (epoch_run loader_down HPa_3_2 0%nat))) <> 1%nat /\
  count is_save_ripple_info
    (calls (trace_of (epoch_run loader_down HPa_3_2 0%nat))) <> 1%nat.
Proof. vm_compute. repeat split; discriminate. Qed.

Lemma catalog_is_not_validated_witness :
  (forall c w0, exists w1 v, working c w0 = (w1, inr v)) /\
  well_formed reversed_band = false /\
  result_of (run working (estimate_ripple_coherence_over
                            malformed_catalog ripple_covariates HPa_3_2) 0%nat)
    = inr tt.
Proof.
  assert (forall c w0, exists w1 v, working c w0 = (w1, inr v)) as Hworking
    by (intros c w0; exists (S w0), (canned c); reflexivity).
  split; [exact Hworking |]. split; [reflexivity |].
  pose proof (catalog_is_not_validated working malformed_catalog
                ripple_covariates HPa_3_2 0%nat) as (_ & _ & Hdone).
  exact (Hdone Hworking).
Defined.

(** C2 as stated fails: a catalog whose entry has its desired frequencies
    in the wrong order is accepted; the run goes through all its calls,
    saves that entry and returns. *)
Lemma malformed_catalog_is_run :
  frequencies_ordered reversed_band = false /\
  result_of (run working (estimate_ripple_coherence_over
                            malformed_catalog ripple_covariates HPa_3_2) 0%nat)
    = inr tt /\
  calls (trace_of (run working (estimate_ripple_coherence_over
                            malformed_catalog ripple_covariates HPa_3_2) 0%nat))
    = full_calls malformed_catalog ripple_covariates HPa_3_2
        [(100, 180); (900, 1010); (2500, 2590); (4000, 4100); (7300, 7380)]
        10%nat ["CA1"; "CA1"; "PFC"]%string ["inbound"; "forward"]%string /\
  length (trace_of (run working (estimate_ripple_coherence_over
                            malformed_catalog ripple_covariates HPa_3_2) 0%nat))
    = 14%nat /\
  In (SaveMultitaperParameters HPa_3_2 "ripple_frequencies" reversed_band)
     (calls (trace_of (run working (estimate_ripple_coherence_over
                            malformed_catalog ripple_covariates HPa_3_2) 0%nat))).
Proof.
  vm_compute. repeat split. do 5 right. left. reflexivity.
Qed.

(** The scenario of the specification: epoch ('HPa', 3, 2), five ripple
    intervals, LFPs of ten tetrodes.  The run makes 77 calls: detector,
    loader and [save_tetrode_pair_info], 16 triggered coherence calls with
    8 parameter saves, the classifier and [save_ripple_info], 48 stratified
    coherence calls. *)
Lemma scenario_HPa_3_2 :
  result_of (epoch_run working HPa_3_2 0%nat) = inr tt /\
  world_of (epoch_run working HPa_3_2 0%nat) = 77%nat /\
  calls (trace_of (epoch_run working HPa_3_2 0%nat))
    = full_calls multitaper_parameters ripple_covariates HPa_3_2
        [(100, 180); (900, 1010); (2500, 2590); (4000, 4100); (7300, 7380)]
        10%nat ["CA1"; "CA1"; "PFC"]%string ["inbound"; "forward"]%string.
Proof. vm_compute. repeat split. Qed.

(** The further properties, checked on runs against the stubs. *)
#[local] Existing Instance stub_shell_types.

(** Runs a stub run, leaving the registry and the parameter sets folded. *)
Ltac run_stubs :=
  cbv -[animals ripple_frequency gamma_frequency_highTimeRes
        gamma_frequency_medFreqRes1 gamma_frequency_medFreqRes2
        gamma_frequency_highFreqRes low_frequency_highTimeRes
        low_frequency_medFreqRes low_frequency_highFreqRes
        stub_types stub_shell_types processing_message git_hash_message].

Lemma arguments_are_passed_on_witness :
  In (SaveTetrodePairInfo HPa_3_2 ["CA1"; "CA1"; "PFC"]%string)
     (calls (trace_of (epoch_run working HPa_3_2 0%nat))) /\
  passes_on HPa_3_2 (trace_of (epoch_run working HPa_3_2 0%nat))
    (SaveTetrodePairInfo HPa_3_2 ["CA1"; "CA1"; "PFC"]%string).
Proof.
  assert (In (SaveTetrodePairInfo HPa_3_2 ["CA1"; "CA1"; "PFC"]%string)
             (calls (trace_of (epoch_run working HPa_3_2 0%nat)))) as Hin
    by (run_stubs; right; right; left; reflexivity).
  split; [exact Hin |].
  exact (arguments_are_passed_on working HPa_3_2 0%nat _ Hin).
Defined.

Lemma calls_scale_with_tables_witness :
  run working (estimate_ripple_coherence_over [] ripple_covariates HPa_3_2)
    0%nat
  = (5%nat,
     trace_of (run working
                 (estimate_ripple_coherence_over [] ripple_covariates HPa_3_2)
                 0%nat),
     inr tt) /\
  length (trace_of (run working
                      (estimate_ripple_coherence_over [] ripple_covariates
                         HPa_3_2) 0%nat)) = 5%nat.
Proof.
  assert (run working
            (estimate_ripple_coherence_over [] ripple_covariates HPa_3_2) 0%nat
          = (5%nat,
             trace_of (run working
                         (estimate_ripple_coherence_over [] ripple_covariates
                            HPa_3_2) 0%nat),
             inr tt)) as Hrun by (run_stubs; reflexivity).
  split; [exact Hrun |].
  pose proof (calls_scale_with_tables working [] ripple_covariates HPa_3_2
                0%nat 5%nat _ Hrun) as [Hlength _].
  exact Hlength.
Defined.

Lemma classifier_failure_keeps_earlier_saves_witness :
  In (DecodeRippleClusterless HPa_3_2 animals
        [(100, 180); (900, 1010); (2500, 2590); (4000, 4100); (7300, 7380)],
      Raised "collaborator failed"%string)
     (trace_of (epoch_run classifier_down HPa_3_2 0%nat)) /\
  result_of (epoch_run classifier_down HPa_3_2 0%nat)
    = inl "collaborator failed"%string.
Proof.
  assert (In (DecodeRippleClusterless HPa_3_2 animals
                [(100, 180); (900, 1010); (2500, 2590); (4000, 4100);
                 (7300, 7380)],
              Raised "collaborator failed"%string)
             (trace_of (epoch_run classifier_down HPa_3_2 0%nat))) as Hin
    by (run_stubs; do 27 right; left; reflexivity).
  split; [exact Hin |].
  pose proof (classifier_failure_keeps_earlier_saves classifier_down HPa_3_2
                0%nat _ _ Hin) as [Hres _].
  exact Hres.
Defined.

Lemma persistence_is_done_before_stratified_phase_witness :
  trace_of (epoch_run working HPa_3_2 0%nat)
  = firstn 29 (trace_of (epoch_run working HPa_3_2 0%nat))
    ++ (CoherenceByRippleType 10%nat ["inbound"; "forward"]%string
          "session_time" "gamma_frequency_medFreqRes1"
          gamma_frequency_medFreqRes1,
        ReturnedArtifact tt)
    :: skipn 30 (trace_of (epoch_run working HPa_3_2 0%nat)) /\
  forallb returned (firstn 29 (trace_of (epoch_run working HPa_3_2 0%nat)))
    = true /\
  count is_persistence
    (calls (firstn 29 (trace_of (epoch_run working HPa_3_2 0%nat))))
    = 10%nat.
Proof.
  assert (trace_of (epoch_run working HPa_3_2 0%nat)
          = firstn 29 (trace_of (epoch_run working HPa_3_2 0%nat))
            ++ (CoherenceByRippleType 10%nat ["inbound"; "forward"]%string
                  "session_time" "gamma_frequency_medFreqRes1"
                  gamma_frequency_medFreqRes1,
                ReturnedArtifact tt)
            :: skipn 30 (trace_of (epoch_run working HPa_3_2 0%nat)))
    as Hsplit by (run_stubs; reflexivity).
  split; [exact Hsplit |].
  pose proof (persistence_is_done_before_stratified_phase working HPa_3_2
                0%nat) as (_ & _ & Hbefore).
  exact (Hbefore _ _ _ _ Hsplit eq_refl).
Defined.

Lemma parameters_saved_only_after_coherence_returned_witness :
  In "ripple_frequencies"%string (map fst multitaper_parameters) /\
  In (RippleTriggeredCanonicalCoherence 10%nat HPa_3_2
        ["CA1"; "CA1"; "PFC"]%string
        [(100, 180); (900, 1010); (2500, 2590); (4000, 4100); (7300, 7380)]
        "ripple_frequencies" ripple_frequency,
      Raised "collaborator failed"%string)
     (trace_of (epoch_run ripple_band_down HPa_3_2 0%nat)) /\
  count (fun c => is_save_multitaper_parameters c
                  && names "ripple_frequencies" c)
    (calls (trace_of (epoch_run ripple_band_down HPa_3_2 0%nat))) = 0%nat.
Proof.
  assert (In "ripple_frequencies"%string (map fst multitaper_parameters))
    as Hname by (simpl; do 7 right; left; reflexivity).
  assert (In (RippleTriggeredCanonicalCoherence 10%nat HPa_3_2
                ["CA1"; "CA1"; "PFC"]%string
                [(100, 180); (900, 1010); (2500, 2590); (4000, 4100);
                 (7300, 7380)]
                "ripple_frequencies" ripple_frequency,
              Raised "collaborator failed"%string)
             (trace_of (epoch_run ripple_band_down HPa_3_2 0%nat))) as Hin
    by (run_stubs; do 25 right; left; reflexivity).
  split; [exact Hname |]. split; [exact Hin |].
  pose proof (parameters_saved_only_after_coherence_returned ripple_band_down
                HPa_3_2 0%nat _ Hname) as [_ Hraised].
  exact (Hraised _ _ Hin eq_refl eq_refl).
Defined.

(** The script run for an animal that is not in the registry, with a git
    that fails: the pipeline runs all the same. *)
Lemma script_run_splits :
  run_sh script_stub main 0%nat
  = (fst (fst (run_sh script_stub main 0%nat)),
     snd (fst (run_sh script_stub main 0%nat)),
     snd (run_sh script_stub main 0%nat)).
Proof. destruct (run_sh script_stub main 0%nat) as [[w t] r]. reflexivity. Qed.

Lemma script_run_detects :
  In (Pipeline (DetectEpochRipples ("XYZ"%string, 3, 2) animals
                  sampling_frequency))
     (shell_calls (snd (fst (run_sh script_stub main 0%nat)))).
Proof. run_stubs. do 17 right. left. reflexivity. Qed.

Lemma main_sets_up_then_runs_pipeline_witness :
  animals !! "XYZ"%string = None /\
  In (Pipeline (DetectEpochRipples ("XYZ"%string, 3, 2) animals
                  sampling_frequency))
     (shell_calls (snd (fst (run_sh script_stub main 0%nat)))) /\
  exists parser args formatter handler logger completed w0 tail,
    snd (fst (run_sh script_stub main 0%nat))
    = preamble parser args formatter handler logger completed
      ++ map embed
           (trace_of (epoch_run (pipeline_of script_stub)
                        (Args.Animal args, Args.Day args, Args.Epoch args)
                        w0))
      ++ tail /\
    (tail = [] \/
     exists a, tail = [(LoggerInfo logger "Finished Processing", a)]).
Proof.
  split; [reflexivity |]. split; [exact script_run_detects |].
  exact (main_sets_up_then_runs_pipeline script_stub 0%nat _ _ _ _
           script_run_splits script_run_detects).
Defined.


Lemma finished_is_logged_iff_pipeline_returns_witness :
  snd (run_sh script_stub main 0%nat) = inr tt /\
  snd (fst (run_sh script_stub main 0%nat))
  = preamble 1%nat unknown_animal_args 2%nat 3%nat 4%nat git_failed
    ++ map embed
         (trace_of (epoch_run (pipeline_of script_stub)
                      (Args.Animal unknown_animal_args,
                       Args.Day unknown_animal_args,
                       Args.Epoch unknown_animal_args) 17%nat))
    ++ [(LoggerInfo 4%nat "Finished Processing", ShNone)] /\
  result_of (epoch_run (pipeline_of script_stub)
               (Args.Animal unknown_animal_args,
                Args.Day unknown_animal_args,
                Args.Epoch unknown_animal_args) 17%nat) = inr tt /\
  (exists t0 logger,
     snd (fst (run_sh script_stub main 0%nat))
     = t0 ++ [(LoggerInfo logger "Finished Processing", ShNone)]) /\
  (exists c a, In (Pipeline c, a) (snd (fst (run_sh script_stub main 0%nat)))) /\
  (forall c err,
     ~ In (Pipeline c, ShRaised err)
          (snd (fst (run_sh script_stub main 0%nat)))).
Proof.
  assert (snd (run_sh script_stub main 0%nat) = inr tt) as Hdone
    by (vm_compute; reflexivity).
  assert (snd (fst (run_sh script_stub main 0%nat))
          = preamble 1%nat unknown_animal_args 2%nat 3%nat 4%nat git_failed
            ++ map embed
                 (trace_of (epoch_run (pipeline_of script_stub)
                              (Args.Animal unknown_animal_args,
                               Args.Day unknown_animal_args,
                               Args.Epoch unknown_animal_args) 17%nat))
            ++ [(LoggerInfo 4%nat "Finished Processing", ShNone)]) as Hcut
    by (run_stubs; reflexivity).
  pose proof (finished_is_logged_iff_pipeline_returns script_stub 0%nat _ _ _
                script_run_splits) as (Hiff & Hcuts & _ & _ & _ & Hreturns).
  split; [exact Hdone |]. split; [exact Hcut |].
  split.
  { exact (proj2 (Hcuts 1%nat unknown_animal_args 2%nat 3%nat 4%nat
                    git_failed 17%nat
                    [(LoggerInfo 4%nat "Finished Processing", ShNone)] Hcut)
                 (ex_intro _ ShNone eq_refl)). }
  destruct (Hreturns Hdone) as (t0 & logger & Hlast).
  split; [exists t0, logger; exact Hlast |].
  apply (proj1 Hiff). exists logger, ShNone. rewrite Hlast.
  apply in_or_app. right. left. reflexivity.
Defined.
